(** * Conversation state and backup logic of the simulated-phone chat client

    A shallow embedding of
    - [types.ts]                                 (the data model),
    - [components/wechat/ChatInterface.tsx]      ([handleSendMessage]),
    - the settings application                   ([handleExportBackup],
      [handleImportFileSelect], [confirmImport]),
    followed by the properties of message append, history windowing, prompt
    selection and interpolation, the generation flag, and backup export and
    import. *)

From Stdlib Require Import Ascii.
From stdpp Require Import gmap strings list pretty relations.

Local Open Scope Z_scope.
Local Set Warnings "-register-all".

(** ** JavaScript primitives used by the handlers *)

(** Strings are sequences of code units; the model covers the first 256.
    [isWhiteSpace] lists the code units that [String.prototype.trim] strips
    in that range: TAB, LF, VT, FF, CR, SP and NBSP. *)
Definition isWhiteSpace (c : ascii) : bool :=
  bool_decide (nat_of_ascii c ∈ [9; 10; 11; 12; 13; 32; 160]%nat).

Fixpoint trimStart (s : string) : string :=
  match s with
  | EmptyString => EmptyString
  | String c s' => if isWhiteSpace c then trimStart s' else s
  end.

Fixpoint trimEnd (s : string) : string :=
  match s with
  | EmptyString => EmptyString
  | String c s' =>
      match trimEnd s' with
      | EmptyString => if isWhiteSpace c then EmptyString else String c EmptyString
      | t => String c t
      end
  end.

Definition trim (s : string) : string := trimEnd (trimStart s).

(** Truthiness of a string: every string but the empty one. *)
Definition truthy_string (s : string) : bool :=
  match s with EmptyString => false | _ => true end.

(** [Array.prototype.slice(start)] with the end omitted.  A negative [start]
    counts from the end of the array, any other [start] from its beginning;
    both are clamped to the array.  Numbers are modelled by the integers. *)
Definition slice {A} (start : Z) (l : list A) : list A :=
  let len := Z.of_nat (length l) in
  let k := if decide (start < 0) then Z.max (len + start) 0 else Z.min start len in
  drop (Z.to_nat k) l.

(** The last [n] elements of a list. *)
Definition last_n {A} (n : Z) (l : list A) : list A :=
  drop (length l - Z.to_nat n)%nat l.

(** [Number.prototype.toString()] on a safe integer, such as a reading of
    [Date.now()]: its decimal numeral. *)
Definition toString (n : Z) : string := pretty n.

(** The Number nearest to an integer, ties going to the even significand.
    The integers of magnitude up to 2^53 are Numbers themselves.  An integer
    of magnitude [2 ^ 1024] or more, which JavaScript rounds to [Infinity],
    is outside the model. *)
Definition round_double (n : Z) : Z :=
  let a := Z.abs n in
  if bool_decide (a <= 9007199254740992) then n
  else
    let e := Z.log2 a - 52 in
    let q := a / 2 ^ e in
    let r := a mod 2 ^ e in
    let half := 2 ^ (e - 1) in
    let q' := if bool_decide (half < r) || (bool_decide (r = half) && Z.odd q)
              then q + 1 else q in
    Z.sgn n * (q' * 2 ^ e).

(** The number of decimal digits of a positive integer. *)
Definition digits (a : Z) : Z := Z.of_nat (String.length (pretty a)).

(** The integers with [k] significant digits next to [x], which has [n]
    digits: the one that reads back as [x], the nearer one if both do, the
    one with the even last digit if they are as near. *)
Definition candidate (x n k : Z) : option Z :=
  let p := 10 ^ (n - k) in
  let lo := x / p * p in
  let hi := lo + p in
  match bool_decide (round_double lo = x), bool_decide (round_double hi = x) with
  | true, true =>
      Some (if bool_decide (x - lo < hi - x) then lo
            else if bool_decide (hi - x < x - lo) then hi
            else if Z.even (lo / p) then lo else hi)
  | true, false => Some lo
  | false, true => Some hi
  | false, false => None
  end.

Fixpoint shortest_from (x n k : Z) (fuel : nat) : Z :=
  match fuel with
  | O => x
  | S fuel' =>
      match candidate x n k with
      | Some v => v
      | None => shortest_from x n (k + 1) fuel'
      end
  end.

(** The integer with the fewest significant digits that reads back as the
    Number [x]. *)
Definition shortest (x : Z) : Z :=
  shortest_from x (digits x) 1 (Z.to_nat (digits x)).

Fixpoint strip_zeros (s : string) : string :=
  match s with
  | EmptyString => EmptyString
  | String c s' =>
      match strip_zeros s' with
      | EmptyString => if Ascii.eqb c "0" then EmptyString else String c EmptyString
      | t => String c t
      end
  end.

(** [d.ddd] followed by [e+] and the exponent. *)
Definition exponent_form (v : Z) : string :=
  match strip_zeros (pretty v) with
  | EmptyString => "0"
  | String d EmptyString => String d ("e+" +:+ pretty (digits v - 1))
  | String d r => String d ("." +:+ r +:+ "e+" +:+ pretty (digits v - 1))
  end.

(** [Number.prototype.toString()] on the Number that an integer denotes:
    the decimal numeral of a safe integer; beyond, the fewest digits that
    read back as the Number, written out in full up to 21 digits and in
    exponent notation from 1e21 on. *)
Definition Number_toString (n : Z) : string :=
  if bool_decide (Z.abs n <= 9007199254740992) then pretty n
  else
    let v := shortest (round_double (Z.abs n)) in
    let body := if bool_decide (digits v <= 21) then pretty v else exponent_form v in
    if bool_decide (n < 0) then "-" +:+ body else body.

(** ** The data model ([types.ts]) *)

Inductive Role := user | model | system.
Inductive Mode := online | offline | theater.

#[global] Instance Role_eq_dec : EqDecision Role.
Proof. solve_decision. Defined.

#[global] Instance Mode_eq_dec : EqDecision Mode.
Proof. solve_decision. Defined.

Module Quote.
Record t := mk { id : string; content : string; name : string }.
End Quote.

Module Message.
Record t := mk {
    id : string;
    role : Role;
    content : string;
    osContent : option string;
    timestamp : Z;
    mode : option Mode;
    scenarioId : option string;
    isRecalled : option bool;
    originalContent : option string;
    quote : option Quote.t;
    isHidden : option bool
  }.
End Message.

Module MemoryCard.
Record t := mk {
    id : string;
    location : option string;
    event : string;
    status : option string;
    content : string;
    timestamp : Z;
    selected : option bool
  }.
End MemoryCard.

Module DiaryEntry.
Record t := mk {
    id : string;
    timestamp : Z;
    title : string;
    weather : string;
    mood : string;
    content : string;
    isExpanded : option bool
  }.
End DiaryEntry.

Module PeekReaction.
Record t := mk {
    charId : string;
    charName : string;
    charAvatar : string;
    comment : string;
    timestamp : Z
  }.
End PeekReaction.

Module UserDiaryEntry.
Record t := mk {
    id : string;
    timestamp : Z;
    title : string;
    content : string;
    weather : string;
    mood : string;
    peeks : list PeekReaction.t;
    isExpanded : option bool
  }.
End UserDiaryEntry.

Module FurnaceConfig.
Record t := mk {
    autoEnabled : bool;
    autoThreshold : Z;
    autoScope : Z;
    manualScope : Z
  }.
End FurnaceConfig.

Module OfflineConfig.
Record t := mk {
    systemPrompt : string;
    style : string;
    wordCount : Z;
    bgUrl : option string;
    indicatorColor : option string
  }.
End OfflineConfig.

Module Scenario.
Record t := mk {
    id : string;
    title : string;
    description : string;
    systemPrompt : string;
    isConnected : bool;
    wallpaper : option string;
    contextMemory : option string;
    messages : option (list Message.t)
  }.
End Scenario.

Module GlobalPersona.
Record t := mk {
    name : string;
    avatar : string;
    description : string;
    diaries : list UserDiaryEntry.t
  }.
End GlobalPersona.

Module Character.
Record t := mk {
    id : string;
    name : string;
    remark : string;
    avatar : string;
    description : string;
    personality : string;
    systemPrompt : string;
    osSystemPrompt : option string;
    showOS : option bool;
    useLocalPersona : bool;
    userMaskName : string;
    userMaskAvatar : option string;
    userMaskDescription : option string;
    realTimeMode : bool;
    chatBackground : option string;
    contextMemory : string;
    historyCount : Z;
    furnaceConfig : FurnaceConfig.t;
    offlineConfig : OfflineConfig.t;
    scenarios : option (list Scenario.t);
    memories : list MemoryCard.t;
    messages : list Message.t;
    diaries : list DiaryEntry.t;
    isPinned : option bool;
    unread : option Z
  }.

Definition with_messages (ms : list Message.t) (c : t) : t :=
    mk (id c) (name c) (remark c) (avatar c) (description c) (personality c)
       (systemPrompt c) (osSystemPrompt c) (showOS c) (useLocalPersona c)
       (userMaskName c) (userMaskAvatar c) (userMaskDescription c)
       (realTimeMode c) (chatBackground c) (contextMemory c) (historyCount c)
       (furnaceConfig c) (offlineConfig c) (scenarios c) (memories c) ms
       (diaries c) (isPinned c) (unread c).

Definition with_memories (ms : list MemoryCard.t) (c : t) : t :=
    mk (id c) (name c) (remark c) (avatar c) (description c) (personality c)
       (systemPrompt c) (osSystemPrompt c) (showOS c) (useLocalPersona c)
       (userMaskName c) (userMaskAvatar c) (userMaskDescription c)
       (realTimeMode c) (chatBackground c) (contextMemory c) (historyCount c)
       (furnaceConfig c) (offlineConfig c) (scenarios c) ms (messages c)
       (diaries c) (isPinned c) (unread c).
End Character.

Module AppSettings.
Record t := mk {
    apiUrl : string;
    apiKey : string;
    model : string;
    wallpaper : string;
    fullScreenMode : bool;
    customFont : option string;
    availableModels : list string;
    globalPersona : GlobalPersona.t
  }.
End AppSettings.

(** ** [ChatInterface.tsx]: sending a message *)

Module ChatInterface.

(** The element type of the array handed to [generateChatCompletion]. *)
Record ChatMessage := { chat_role : string; chat_content : string }.

(** The value of a message's [role] field as a string. *)
Definition role_string (r : Role) : string :=
  match r with user => "user" | model => "model" | system => "system" end.

(** The second argument of [interpolatePrompt] as [handleSendMessage]
    builds it. *)
Record PromptVars := {
  ai_name : string;
  user_mask_name : string;
  personality : string;
  style : string;
  word_count : string
}.

(** The props of the component that [handleSendMessage] reads, and its
    [inputText] state. *)
Record Props := {
  character : Character.t;
  settings : AppSettings.t;
  isGlobalGenerating : bool;
  inputText : string
}.

(** What the handler does to its surroundings: the calls of the callback
    props and of the state setter, the completion request, and the log line
    of the [catch] block. *)
Inductive Effect :=
| onAddMessage (charId : string) (msg : Message.t)
| setInputText (s : string)
| setGlobalGenerating (b : bool)
| generateChatCompletion (messagesPayload : list ChatMessage) (settings : AppSettings.t)
| console_error.

(** How the awaited request ends. *)
Inductive Outcome := Resolved (responseContent : string) | Rejected.

(** What the suspended handler keeps across the [await]: the [character] of
    the render it ran in and the [userMsg] it built. *)
Record Suspended := { sus_character : Character.t; sus_userMsg : Message.t }.

(** [character.offlineConfig?.bgUrl] as a condition. *)
Definition bgUrl_truthy (c : Character.t) : bool :=
  match OfflineConfig.bgUrl (Character.offlineConfig c) with
  | Some url => truthy_string url
  | None => false
  end.

Section Handlers.

(** [interpolatePrompt] is imported from [services/aiService]. *)
Variable interpolatePrompt : string -> PromptVars -> string.

(** [userMsg]; [now_id] and [now_ts] are the two readings of [Date.now()]. *)
Definition userMsg (p : Props) (now_id now_ts : Z) : Message.t :=
  Message.mk (toString now_id) user (inputText p) None now_ts
    (Some (if bgUrl_truthy (character p) then offline else online))
    None None None None None.

Definition history (c : Character.t) : list ChatMessage :=
  (fun m =>
     {| chat_role := match Message.role m with
                     | model => "assistant"
                     | r => role_string r
                     end;
        chat_content := Message.content m |})
    <$> slice (- Character.historyCount c) (Character.messages c).

Definition conversation (c : Character.t) (u : Message.t) : list ChatMessage :=
  history c ++ [ {| chat_role := "user"; chat_content := Message.content u |} ].

Definition isOfflineMode (c : Character.t) : bool := bgUrl_truthy c.

Definition systemPromptTemplate (c : Character.t) : string :=
  if isOfflineMode c
  then OfflineConfig.systemPrompt (Character.offlineConfig c)
  else Character.systemPrompt c.

Definition systemPrompt (c : Character.t) : string :=
  interpolatePrompt (systemPromptTemplate c)
    {| ai_name := Character.name c;
       user_mask_name := Character.userMaskName c;
       personality := Character.personality c;
       style := OfflineConfig.style (Character.offlineConfig c);
       word_count :=
         Number_toString (OfflineConfig.wordCount (Character.offlineConfig c)) |}.

Definition messagesPayload (c : Character.t) (u : Message.t) : list ChatMessage :=
  {| chat_role := "system"; chat_content := systemPrompt c |} :: conversation c u.

(** [handleSendMessage] up to its [await]: the effects in program order, and
    the suspended rest when a request was issued. *)
Definition handleSendMessage (p : Props) (now_id now_ts : Z)
  : list Effect * option Suspended :=
  if negb (truthy_string (trim (inputText p))) || isGlobalGenerating p then ([], None)
  else
    let u := userMsg p now_id now_ts in
    ([ onAddMessage (Character.id (character p)) u;
       setInputText "";
       setGlobalGenerating true;
       generateChatCompletion (messagesPayload (character p) u) (settings p) ],
     Some {| sus_character := character p; sus_userMsg := u |}).

(** [aiMsg]; [now_id] and [now_ts] are again two readings of [Date.now()]. *)
Definition aiMsg (u : Message.t) (responseContent : string) (now_id now_ts : Z)
  : Message.t :=
  Message.mk (toString (now_id + 1)) model responseContent None now_ts
    (Message.mode u) None None None None None.

(** [handleSendMessage] from the point where the awaited request settles:
    the rest of the [try] block or the [catch] block, then [finally]. *)
Definition handleSendMessage_resume (k : Suspended) (o : Outcome) (now_id now_ts : Z)
  : list Effect :=
  match o with
  | Resolved responseContent =>
      [ onAddMessage (Character.id (sus_character k))
          (aiMsg (sus_userMsg k) responseContent now_id now_ts);
        setGlobalGenerating false ]
  | Rejected =>
      [ console_error; setGlobalGenerating false ]
  end.

End Handlers.

(** *** The surroundings of the component

    The parent component owns the character list and the generation flag and
    passes them down as props; the requests issued by [handleSendMessage]
    settle later, each resuming the handler that awaits it. *)

(** Modelled from the spec: the parent's handler behind the [onAddMessage]
    prop is not part of the component; "message append" is taken to add the
    message at the end of the [messages] of the character with that id and
    to leave everything else as it is. *)
Definition addMessage (charId : string) (msg : Message.t)
  (cs : list Character.t) : list Character.t :=
  (fun c => if decide (Character.id c = charId)
            then Character.with_messages (Character.messages c ++ [msg]) c
            else c) <$> cs.

Record World := {
  w_characters : list Character.t;
  w_settings : AppSettings.t;
  w_generating : bool;
  w_inputText : string;
  w_requests : list Suspended
}.

Definition perform (w : World) (e : Effect) : World :=
  match e with
  | onAddMessage charId msg =>
      {| w_characters := addMessage charId msg (w_characters w);
         w_settings := w_settings w; w_generating := w_generating w;
         w_inputText := w_inputText w; w_requests := w_requests w |}
  | setInputText s =>
      {| w_characters := w_characters w; w_settings := w_settings w;
         w_generating := w_generating w; w_inputText := s;
         w_requests := w_requests w |}
  | setGlobalGenerating b =>
      {| w_characters := w_characters w; w_settings := w_settings w;
         w_generating := b; w_inputText := w_inputText w;
         w_requests := w_requests w |}
  | generateChatCompletion _ _ => w
  | console_error => w
  end.

Definition is_onAddMessage (e : Effect) : bool :=
  match e with onAddMessage _ _ => true | _ => false end.

Definition with_requests (rs : list Suspended) (w : World) : World :=
  {| w_characters := w_characters w; w_settings := w_settings w;
     w_generating := w_generating w; w_inputText := w_inputText w;
     w_requests := rs |}.

(** What can happen to a mounted chat: the user edits the input, sends it in
    the chat of the [i]-th character, or the [i]-th request in flight
    settles.  The integers are the readings of [Date.now()]. *)
Inductive Event :=
| Edit (s : string)
| Send (i : nat) (now_id now_ts : Z)
| Settle (i : nat) (o : Outcome) (now_id now_ts : Z).

(** The props a chat of character [c] is rendered with in world [w]. *)
Definition props_in (w : World) (c : Character.t) : Props :=
  {| character := c; settings := w_settings w;
     isGlobalGenerating := w_generating w; inputText := w_inputText w |}.

Section Run.

Variable interpolatePrompt : string -> PromptVars -> string.

(** One event.  The component is rendered anew after every change of state,
    so the handler that serves an event reads the current state through its
    props; a resumed handler still holds what it captured when it sent. *)
Definition step (w : World) (ev : Event) : World :=
  match ev with
  | Edit s => perform w (setInputText s)
  | Send i now_id now_ts =>
      match w_characters w !! i with
      | None => w
      | Some c =>
          let '(es, k) :=
            handleSendMessage interpolatePrompt (props_in w c) now_id now_ts in
          let w' := foldl perform w es in
          match k with
          | Some k => with_requests (w_requests w' ++ [k]) w'
          | None => w'
          end
      end
  | Settle i o now_id now_ts =>
      match w_requests w !! i with
      | None => w
      | Some k =>
          foldl perform (with_requests (delete i (w_requests w)) w)
            (handleSendMessage_resume k o now_id now_ts)
      end
  end.

(** The application starts with no generation in progress. *)
Definition initial (w : World) : Prop :=
  w_generating w = false /\ w_requests w = [].

Definition reachable (w : World) : Prop :=
  exists w0 evs, initial w0 /\ w = foldl step w0 evs.

(** At most one request is in flight, and the flag is set while one is. *)
Definition one_in_flight (w : World) : Prop :=
  (length (w_requests w) <= 1)%nat /\ (w_requests w <> [] -> w_generating w = true).

End Run.

End ChatInterface.

(** ** Automatic furnace summarization *)

Module Furnace.

Section Summarize.

(** The summary of a run of messages is written by the completion service. *)
Variable summarize : list Message.t -> MemoryCard.t.

(** Modelled from the spec: the code that runs the furnace is not in src/,
    which only declares [FurnaceConfig] ("Trigger after X messages",
    "Summarize last Y messages") and [Character.memories].  Once the stored
    messages number [autoThreshold] or more and [autoEnabled] is set, the
    last [autoScope] messages are summarized into a card that is appended to
    [memories]. *)
Definition autoFurnace (c : Character.t) : Character.t :=
  let f := Character.furnaceConfig c in
  if FurnaceConfig.autoEnabled f
     && bool_decide (FurnaceConfig.autoThreshold f <= Z.of_nat (length (Character.messages c)))
  then Character.with_memories
         (Character.memories c
            ++ [summarize (last_n (FurnaceConfig.autoScope f) (Character.messages c))]) c
  else c.

End Summarize.

End Furnace.

(** ** The settings application: backup export and import *)

Module SettingsApp.

(** The characters and settings that are written to and read from a backup
    are plain data.  [json] is the data [JSON.parse] produces; [undefined]
    is not among it, and an object property that holds [undefined] is
    identified with an absent one: property reads and [JSON.stringify] do
    not tell them apart.  Numbers are modelled by the integers. *)
Inductive json :=
| JNull
| JBool (b : bool)
| JNum (n : Z)
| JStr (s : string)
| JArr (xs : list json)
| JObj (props : gmap string json).

(** The value of an expression: [undefined] or a datum. *)
Inductive value := undefined | Val (j : json).

Definition truthy (v : value) : bool :=
  match v with
  | undefined | Val JNull => false
  | Val (JBool b) => b
  | Val (JNum n) => negb (n =? 0)
  | Val (JStr s) => truthy_string s
  | Val (JArr _) | Val (JObj _) => true
  end.

(** [a || b] and [a ?? b] where [b] is a datum. *)
Definition or_else (a : value) (b : json) : json :=
  match a with
  | Val j => if truthy a then j else b
  | undefined => b
  end.

Definition nullish_or (a : value) (b : json) : json :=
  match a with
  | undefined | Val JNull => b
  | Val j => j
  end.

(** [o.k] for a receiver [o] that is not [null].  None of the names read in
    this file is a built-in property of arrays, strings, numbers or
    booleans, so only objects answer with anything but [undefined]. *)
Definition prop (o : json) (k : string) : value :=
  match o with
  | JObj m => match m !! k with Some j => Val j | None => undefined end
  | _ => undefined
  end.

(** [o.k] for any receiver: reading a property of [null] throws a
    [TypeError], written [None]. *)
Definition get (o : json) (k : string) : option value :=
  match o with
  | JNull => None
  | _ => Some (prop o k)
  end.

Definition string_chars (s : string) : list json :=
  (fun a => JStr (String a EmptyString)) <$> String.list_ascii_of_string s.

(** The own enumerable properties that [{...v}] copies: those of an object,
    the indexed elements of an array, the indexed characters of a string. *)
Definition indexed (xs : list json) : gmap string json :=
  list_to_map (imap (fun i x => (pretty i, x)) xs).

Definition spread (v : value) : gmap string json :=
  match v with
  | Val (JObj m) => m
  | Val (JArr xs) => indexed xs
  | Val (JStr s) => indexed (string_chars s)
  | _ => ∅
  end.

(** A property written with a value that may be [undefined]. *)
Definition set_prop (k : string) (v : value) (m : gmap string json)
  : gmap string json :=
  match v with
  | undefined => delete k m
  | Val j => <[k := j]> m
  end.

(** [v.slice(start)]: arrays and strings have the method, calling it on
    anything else throws. *)
Definition slice_method (start : Z) (v : json) : option json :=
  match v with
  | JArr xs => Some (JArr (slice start xs))
  | JStr s =>
      Some (JStr (String.string_of_list_ascii
                    (slice start (String.list_ascii_of_string s))))
  | _ => None
  end.

Record BackupData := {
  version : json;
  type : string;
  timestamp : json;
  settings : json;
  characters : list json
}.

(** The object [JSON.stringify] serializes for a [BackupData]. *)
Definition BackupData_json (b : BackupData) : json :=
  JObj (<["version" := version b]>
       (<["type" := JStr (type b)]>
       (<["timestamp" := timestamp b]>
       (<["settings" := settings b]>
       (<["characters" := JArr (characters b)]> ∅))))).

(** *** [handleExportBackup] *)

Definition export_scenario (s : json) : option json :=
  m ← get s "messages";
  messages ← (if truthy m
              then match m with Val j => slice_method (-50) j | undefined => None end
              else Some (JArr []));
  Some (JObj (<["messages" := messages]> (spread (Val s)))).

Definition export_character (c : json) : option json :=
  m ← get c "messages";
  sc ← get c "scenarios";
  scenarios ← match sc with
              | undefined | Val JNull => Some undefined
              | Val (JArr ss) => (fun l => Val (JArr l)) <$> mapM export_scenario ss
              | _ => None
              end;
  Some (JObj (set_prop "scenarios" scenarios
             (<["messages" := match m with
                              | Val (JArr xs) => JArr (slice (-50) xs)
                              | _ => JArr []
                              end]> (spread (Val c))))).

(** The [backupData] that is serialized and offered for download, or
    [None] when building it throws and the [catch] block reports the failure.
    [now] is the reading of [Date.now()]. *)
Definition handleExportBackup (settings : json) (characters : list json) (now : Z)
  : option BackupData :=
  cs ← mapM export_character characters;
  Some {| version := JNum 1; type := "small_phone_backup"; timestamp := JNum now;
          settings := settings; characters := cs |}.

(** *** The component's state *)

(** The errors thrown while a selected file is examined. *)
Inductive ImportError :=
| err_empty               (* the file has no content *)
| err_not_json            (* the content is not valid JSON *)
| err_invalid_structure   (* the content is not an object *)
| err_no_backup_data.     (* neither settings nor characters *)

Inductive ImportMsg :=
| msg_none
| msg_exported
| msg_parsing
| msg_waiting
| msg_error (e : ImportError)
| msg_read_failed
| msg_imported
| msg_apply_failed
| msg_cancelled.

(** The props [settings] and [characters] with the parent's state behind
    them ([updateSettings] and [onUpdateCharacters] replace it), and the
    component's own state. *)
Record State := {
  app_settings : json;
  app_characters : list json;
  localSettings : json;
  importMsg : ImportMsg;
  pendingImport : option BackupData
}.

(** What the [FileReader] reports for the selected file, if one was
    selected. *)
Inductive FileEvent :=
| NoFile
| Loaded (result : string)
| ReadError.

Definition DEFAULT_FURNACE_CONFIG : gmap string json :=
  <["autoEnabled" := JBool false]>
  (<["autoThreshold" := JNum 20]>
  (<["autoScope" := JNum 30]>
  (<["manualScope" := JNum 30]> ∅))).

Section Importing.

(** [DEFAULT_OFFLINE_PROMPT] is imported from [constants]. *)
Variable DEFAULT_OFFLINE_PROMPT : string.

(** [JSON.parse]; [None] when it throws. *)
Variable JSON_parse : string -> option json.

Definition DEFAULT_OFFLINE_CONFIG : gmap string json :=
  <["systemPrompt" := JStr DEFAULT_OFFLINE_PROMPT]>
  (<["style" := JStr "细腻、沉浸、小说感"]>
  (<["wordCount" := JNum 150]>
  (<["bgUrl" := JStr ""]>
  (<["indicatorColor" := JStr "#f59e0b"]> ∅)))).

(** *** [handleImportFileSelect] *)

(** The body of [reader.onload]: the backup to stage, or the error thrown.
    [settings] is the prop and [now] the reading of [Date.now()]. *)
Definition parse_backup (settings : json) (json : string) (now : Z)
  : ImportError + BackupData :=
  if negb (truthy_string json) then inl err_empty
  else
    match JSON_parse json with
    | None => inl err_not_json
    | Some data =>
        match data with
        | JObj _ | JArr _ =>
            if negb (truthy (prop data "settings"))
               && negb (truthy (prop data "characters"))
            then inl err_no_backup_data
            else inr {| version := or_else (prop data "version") (JNum 1);
                        type := "small_phone_backup";
                        timestamp := or_else (prop data "timestamp") (JNum now);
                        settings := or_else (prop data "settings") settings;
                        characters := match prop data "characters" with
                                      | Val (JArr cs) => cs
                                      | _ => []
                                      end |}
        | _ => inl err_invalid_structure
        end
    end.

Definition handleImportFileSelect (st : State) (f : FileEvent) (now : Z) : State :=
  match f with
  | NoFile => st
  | ReadError =>
      {| app_settings := app_settings st; app_characters := app_characters st;
         localSettings := localSettings st;
         importMsg := msg_read_failed; pendingImport := None |}
  | Loaded json =>
      match parse_backup (app_settings st) json now with
      | inl e =>
          {| app_settings := app_settings st; app_characters := app_characters st;
             localSettings := localSettings st;
             importMsg := msg_error e; pendingImport := None |}
      | inr validBackup =>
          {| app_settings := app_settings st; app_characters := app_characters st;
             localSettings := localSettings st;
             importMsg := msg_waiting; pendingImport := Some validBackup |}
      end
  end.

(** *** [confirmImport] *)

(** One element of [sanitizedChars]. *)
Definition sanitize (c : json) : option json :=
  furnaceConfig ← get c "furnaceConfig";
  Some (JObj
    (<["furnaceConfig" :=
         JObj (spread (Val (or_else furnaceConfig (JObj ∅))) ∪ DEFAULT_FURNACE_CONFIG)]>
    (<["offlineConfig" :=
         JObj (spread (Val (or_else (prop c "offlineConfig") (JObj ∅)))
               ∪ DEFAULT_OFFLINE_CONFIG)]>
    (<["scenarios" := match prop c "scenarios" with Val (JArr l) => JArr l | _ => JArr [] end]>
    (<["diaries" := match prop c "diaries" with Val (JArr l) => JArr l | _ => JArr [] end]>
    (<["memories" := match prop c "memories" with Val (JArr l) => JArr l | _ => JArr [] end]>
    (<["messages" := match prop c "messages" with Val (JArr l) => JArr l | _ => JArr [] end]>
    (<["useLocalPersona" := nullish_or (prop c "useLocalPersona") (JBool false)]>
    (<["realTimeMode" := nullish_or (prop c "realTimeMode") (JBool false)]>
    (<["showOS" := nullish_or (prop c "showOS") (JBool false)]>
    (spread (Val c)))))))))))).

Definition confirmImport (st : State) : State :=
  match pendingImport st with
  | None => st
  | Some pending =>
      let s := if truthy (Val (settings pending))
               then settings pending else app_settings st in
      let l := if truthy (Val (settings pending))
               then settings pending else localSettings st in
      match mapM sanitize (characters pending) with
      | Some sanitizedChars =>
          {| app_settings := s; app_characters := sanitizedChars;
             localSettings := l;
             importMsg := msg_imported; pendingImport := None |}
      | None =>
          {| app_settings := s; app_characters := app_characters st;
             localSettings := l;
             importMsg := msg_apply_failed; pendingImport := pendingImport st |}
      end
  end.

Definition cancelImport (st : State) : State :=
  {| app_settings := app_settings st; app_characters := app_characters st;
     localSettings := localSettings st;
     importMsg := msg_cancelled; pendingImport := None |}.

End Importing.

End SettingsApp.

(** * The behaviour the specification describes *)

Module Spec.

(** History windowing: the system prompt, then the last [historyCount]
    elements of [character.messages], each mapped to its role and content
    with [model] renamed to [assistant], then the new user message. *)
Definition windowed_payload (systemPrompt : string) (c : Character.t)
  (input : string) : list ChatInterface.ChatMessage :=
  ChatInterface.Build_ChatMessage "system" systemPrompt
    :: ((fun m =>
           ChatInterface.Build_ChatMessage
             (if decide (Message.role m = model) then "assistant"
              else ChatInterface.role_string (Message.role m))
             (Message.content m))
          <$> last_n (Character.historyCount c) (Character.messages c))
    ++ [ChatInterface.Build_ChatMessage "user" input].

(** The bindings of the prompt as the specification words them, with
    [word_count] the decimal string of the word count. *)
Definition stated_bindings (c : Character.t) : ChatInterface.PromptVars :=
  ChatInterface.Build_PromptVars (Character.name c) (Character.userMaskName c)
    (Character.personality c)
    (OfflineConfig.style (Character.offlineConfig c))
    (pretty (OfflineConfig.wordCount (Character.offlineConfig c))).

(** A send goes through when the input is not blank and no generation is in
    progress. *)
Definition accepted (p : ChatInterface.Props) : Prop :=
  trim (ChatInterface.inputText p) <> "" /\ ChatInterface.isGlobalGenerating p = false.

(** The mode of a character: offline exactly when [offlineConfig.bgUrl] is a
    non-empty string. *)
Definition offline_mode (c : Character.t) : Prop :=
  exists url, OfflineConfig.bgUrl (Character.offlineConfig c) = Some url /\ url <> "".

End Spec.

(** ** Backups *)

Module BackupSpec.

Import SettingsApp.

Definition is_object (j : json) : Prop := exists m, j = JObj m.

Definition absent_or_array (v : value) : Prop :=
  v = undefined \/ exists xs, v = Val (JArr xs).

Definition absent_or_object (v : value) : Prop :=
  v = undefined \/ exists m, v = Val (JObj m).

Definition absent_or_boolean (v : value) : Prop :=
  v = undefined \/ exists b, v = Val (JBool b).

Definition is_array (v : value) : Prop := exists xs, v = Val (JArr xs).

Definition is_boolean (v : value) : Prop := exists b, v = Val (JBool b).

(** The elements of an array-valued field, none when the field is missing. *)
Definition elements (v : value) : list json :=
  match v with Val (JArr xs) => xs | _ => [] end.

(** The fields of an object-valued field, none when the field is missing. *)
Definition fields (v : value) : gmap string json :=
  match v with Val (JObj m) => m | _ => ∅ end.

(** The last 50 elements of a message list, or [[]] where there is none. *)
Definition last_50 (v : value) : json :=
  match v with Val (JArr xs) => JArr (last_n 50 xs) | _ => JArr [] end.

Definition array_or_empty (v : value) : json :=
  match v with Val (JArr xs) => JArr xs | _ => JArr [] end.

Definition or_default (v : value) (d : json) : json :=
  match v with Val j => j | undefined => d end.

(** Two objects agree on every field outside [keys]. *)
Definition same_except (keys : list string) (o o' : json) : Prop :=
  forall k, k ∉ keys -> prop o' k = prop o k.

(** A [Scenario] and a [Character] as [types.ts] declares them, as far as
    [handleExportBackup] looks into them: [messages] of a scenario and
    [scenarios] of a character are optional arrays. *)
Definition scenario_typed (s : json) : Prop :=
  is_object s /\ absent_or_array (prop s "messages").

Definition character_typed (c : json) : Prop :=
  is_object c
  /\ (prop c "scenarios" = undefined
      \/ exists ss, prop c "scenarios" = Val (JArr ss) /\ Forall scenario_typed ss).

(** A stored character whose fields, if present, have the declared shape;
    any of the fields that [confirmImport] looks after may be missing. *)
Definition character_stored (c : json) : Prop :=
  character_typed c
  /\ absent_or_array (prop c "messages")
  /\ absent_or_array (prop c "diaries")
  /\ absent_or_array (prop c "memories")
  /\ absent_or_object (prop c "furnaceConfig")
  /\ absent_or_object (prop c "offlineConfig")
  /\ absent_or_boolean (prop c "useLocalPersona")
  /\ absent_or_boolean (prop c "realTimeMode")
  /\ absent_or_boolean (prop c "showOS").

(** *** Export *)

Definition exported_scenario (s s' : json) : Prop :=
  is_object s'
  /\ same_except ["messages"] s s'
  /\ prop s' "messages" = Val (last_50 (prop s "messages")).

Definition exported_character (c c' : json) : Prop :=
  is_object c'
  /\ same_except ["messages"; "scenarios"] c c'
  /\ prop c' "messages" = Val (last_50 (prop c "messages"))
  /\ match prop c "scenarios" with
     | Val (JArr ss) =>
         exists ss', prop c' "scenarios" = Val (JArr ss')
                     /\ Forall2 exported_scenario ss ss'
     | _ => prop c' "scenarios" = undefined
     end.

(** *** Import *)

(** [typeof data === 'object'] for a [data] that is not [null]. *)
Definition object_like (data : json) : Prop :=
  match data with JObj _ | JArr _ => True | _ => False end.




(** *** Sanitization *)

(** Every default field is defined in the configuration [v]. *)
Definition has_all (defaults : gmap string json) (v : value) : Prop :=
  exists m, v = Val (JObj m) /\ forall k, is_Some (defaults !! k) -> is_Some (m !! k).

(** The configuration [v'] is [v] with the missing fields taken from
    [defaults]. *)
Definition filled (defaults : gmap string json) (v v' : value) : Prop :=
  exists m', v' = Val (JObj m')
    /\ forall k, m' !! k = match fields v !! k with
                          | Some j => Some j
                          | None => defaults !! k
                          end.

(** The invariant of imported characters as the specification words it. *)
Definition sanitized_stated (offline_defaults : gmap string json) (c' : json) : Prop :=
  has_all DEFAULT_FURNACE_CONFIG (prop c' "furnaceConfig")
  /\ has_all offline_defaults (prop c' "offlineConfig")
  /\ is_array (prop c' "scenarios") /\ is_array (prop c' "diaries")
  /\ is_array (prop c' "memories") /\ is_array (prop c' "messages")
  /\ is_boolean (prop c' "useLocalPersona")
  /\ is_boolean (prop c' "realTimeMode")
  /\ is_boolean (prop c' "showOS").

(** The invariant that holds of every imported character [c'], made from
    the character [c] of the backup: a flag is [false] where the backup has
    none or [null], and the backup's value otherwise. *)
Definition sanitized (offline_defaults : gmap string json) (c c' : json) : Prop :=
  has_all DEFAULT_FURNACE_CONFIG (prop c' "furnaceConfig")
  /\ (absent_or_object (prop c "furnaceConfig") ->
      filled DEFAULT_FURNACE_CONFIG (prop c "furnaceConfig") (prop c' "furnaceConfig"))
  /\ has_all offline_defaults (prop c' "offlineConfig")
  /\ (absent_or_object (prop c "offlineConfig") ->
      filled offline_defaults (prop c "offlineConfig") (prop c' "offlineConfig"))
  /\ is_array (prop c' "scenarios") /\ is_array (prop c' "diaries")
  /\ is_array (prop c' "memories") /\ is_array (prop c' "messages")
  /\ prop c' "useLocalPersona" = Val (nullish_or (prop c "useLocalPersona") (JBool false))
  /\ prop c' "realTimeMode" = Val (nullish_or (prop c "realTimeMode") (JBool false))
  /\ prop c' "showOS" = Val (nullish_or (prop c "showOS") (JBool false)).

(** *** Round trip *)

Definition sanitized_keys : list string :=
  [ "furnaceConfig"; "offlineConfig"; "scenarios"; "diaries"; "memories";
    "messages"; "useLocalPersona"; "realTimeMode"; "showOS" ].

(** A restored scenario as the specification words it: the message list of
    an isolated scenario is cut to its last 50 elements, a connected
    scenario is the same. *)
Definition restored_scenario_stated (s s' : json) : Prop :=
  match prop s "isConnected" with
  | Val (JBool false) => exported_scenario s s'
  | _ => s' = s
  end.

(** A restored character: the same as the exported one except for the
    message lists, cut to their last 50 elements, and for the missing
    fields, filled with the defaults of sanitization.  [scenario] relates
    each scenario to its restored form. *)
Definition restored_character (scenario : json -> json -> Prop)
  (offline_defaults : gmap string json) (c c' : json) : Prop :=
  is_object c'
  /\ same_except sanitized_keys c c'
  /\ prop c' "messages" = Val (last_50 (prop c "messages"))
  /\ (exists ss', prop c' "scenarios" = Val (JArr ss')
                  /\ Forall2 scenario (elements (prop c "scenarios")) ss')
  /\ prop c' "diaries" = Val (array_or_empty (prop c "diaries"))
  /\ prop c' "memories" = Val (array_or_empty (prop c "memories"))
  /\ filled DEFAULT_FURNACE_CONFIG (prop c "furnaceConfig") (prop c' "furnaceConfig")
  /\ filled offline_defaults (prop c "offlineConfig") (prop c' "offlineConfig")
  /\ prop c' "useLocalPersona" = Val (or_default (prop c "useLocalPersona") (JBool false))
  /\ prop c' "realTimeMode" = Val (or_default (prop c "realTimeMode") (JBool false))
  /\ prop c' "showOS" = Val (or_default (prop c "showOS") (JBool false)).

End BackupSpec.

(** * Sample data *)

Module Sample.

Definition message (id : string) (r : Role) (text : string) : Message.t :=
  Message.mk id r text None 1700000000000 (Some online) None None None None None.

Definition character (historyCount : Z) (bgUrl : option string)
  (messages : list Message.t) : Character.t :=
  Character.mk "c1" "Mew" "mew" "" "" "curious" "ONLINE {{ai_name}}" None None
    false "Me" None None false None "" historyCount
    (FurnaceConfig.mk true 2 1 30)
    (OfflineConfig.mk "OFFLINE {{ai_name}}" "novel" 150 bgUrl None)
    None [] messages [] None None.

Definition settings : AppSettings.t :=
  AppSettings.mk "https://api.example/v1" "key" "m" "" false None []
    (GlobalPersona.mk "Me" "" "" []).

Definition interpolate (template : string) (v : ChatInterface.PromptVars) : string :=
  template +:+ "|" +:+ ChatInterface.ai_name v +:+ "|" +:+ ChatInterface.word_count v.

Definition props (c : Character.t) (generating : bool) (input : string)
  : ChatInterface.Props :=
  ChatInterface.Build_Props c settings generating input.

Definition world (c : Character.t) (input : string) : ChatInterface.World :=
  ChatInterface.Build_World [c] settings false input [].


(** Backups: a parser that reads the datum [data] off the selected file,
    the state of a freshly opened settings application, and two files. *)
Definition reads (data : SettingsApp.json) : string -> option SettingsApp.json :=
  fun _ => Some data.

Definition app_settings : SettingsApp.json :=
  SettingsApp.JObj (<["apiUrl" := SettingsApp.JStr "https://api.example/v1"]>
                   (<["model" := SettingsApp.JStr "m"]> ∅)).

Definition state (cs : list SettingsApp.json) : SettingsApp.State :=
  SettingsApp.Build_State app_settings cs app_settings SettingsApp.msg_none None.

Definition offline_prompt : string := "OFFLINE {{ai_name}}".

Definition quote : string := String (Ascii.ascii_of_nat 34) EmptyString.



(** The file [{"characters":[{"id":"c1","useLocalPersona":1}]}]. *)
Definition numeric_flag_text : string :=
  "{" +:+ quote +:+ "characters" +:+ quote +:+ ":[{"
      +:+ quote +:+ "id" +:+ quote +:+ ":" +:+ quote +:+ "c1" +:+ quote +:+ ","
      +:+ quote +:+ "useLocalPersona" +:+ quote +:+ ":1}]}".

Definition numeric_flag : SettingsApp.json :=
  SettingsApp.JObj
    (<["characters" :=
         SettingsApp.JArr
           [ SettingsApp.JObj (<["id" := SettingsApp.JStr "c1"]>
                              (<["useLocalPersona" := SettingsApp.JNum 1]> ∅)) ]]> ∅).

(** A character with one connected scenario, which has no messages of its
    own, and a character with a history of 51 messages. *)
Definition connected_scenario : SettingsApp.json :=
  SettingsApp.JObj (<["id" := SettingsApp.JStr "s1"]>
                   (<["isConnected" := SettingsApp.JBool true]> ∅)).

Definition stored_character : SettingsApp.json :=
  SettingsApp.JObj (<["id" := SettingsApp.JStr "c1"]>
                   (<["scenarios" := SettingsApp.JArr [connected_scenario]]> ∅)).

Definition chatty_character : SettingsApp.json :=
  SettingsApp.JObj (<["id" := SettingsApp.JStr "c2"]>
                   (<["messages" :=
                        SettingsApp.JArr (SettingsApp.JNum <$> seqZ 0 51)]> ∅)).


(** The parser of the importing side when the selected file is the one
    exported from state [st] at time [now]. *)
Definition exported_file (st : SettingsApp.State) (now : Z)
  : string -> option SettingsApp.json :=
  fun _ =>
    SettingsApp.BackupData_json <$>
      SettingsApp.handleExportBackup
        (SettingsApp.app_settings st) (SettingsApp.app_characters st) now.

End Sample.

(** * Further parts of the components *)

(** The code units of a string. *)
Definition chars (s : string) : list ascii := String.list_ascii_of_string s.

(** ** [ChatInterface.tsx]: the settings panel of a chat *)

Module ChatSettings.

(** *** [parseInt] with the radix omitted *)

(** The value of a character as a digit, letters counting from ten. *)
Definition digit_of (c : ascii) : option N :=
  let n := N_of_ascii c in
  if bool_decide (48 <= n <= 57)%N then Some (n - 48)%N
  else if bool_decide (97 <= n <= 122)%N then Some (n - 87)%N
  else if bool_decide (65 <= n <= 90)%N then Some (n - 55)%N
  else None.

(** The value of the longest prefix of [s] made of digits of the radix,
    continuing from [acc]; [None] when no digit has been read. *)
Fixpoint parse_digits (radix : N) (s : string) (acc : option N) : option N :=
  match s with
  | EmptyString => acc
  | String c s' =>
      match digit_of c with
      | Some d =>
          if bool_decide (d < radix)%N
          then parse_digits radix s' (Some (radix * default 0%N acc + d)%N)
          else acc
      | None => acc
      end
  end.

(** [parseInt(s)]: leading white space is skipped, a sign is read, the
    prefix [0x] or [0X] selects radix 16, and the longest run of digits is
    read; the result is the Number nearest to their value, and [None] stands
    for [NaN].  A numeral beyond the largest finite Number is read as
    [Infinity], which has no counterpart among the integers: the definition
    stands for [parseInt] on the inputs of ASCII characters whose value is
    below [2 ^ 1024], those of at most 256 characters among them; the value
    of an [<input type="number">] is made of ASCII characters. *)
Definition parseInt (s : string) : option Z :=
  let s1 := trimStart s in
  let '(sign, s2) := match s1 with
                     | String "-" r => (-1, r)
                     | String "+" r => (1, r)
                     | _ => (1, s1)
                     end in
  let '(radix, s3) := match s2 with
                      | String "0" (String "x" r) | String "0" (String "X" r) => (16%N, r)
                      | _ => (10%N, s2)
                      end in
  match parse_digits radix s3 None with
  | Some n => Some (round_double (sign * Z.of_N n))
  | None => None
  end.

(** [parseInt(v) || 150] *)
Definition wordCount_of_input (v : string) : Z :=
  match parseInt v with
  | Some n => if decide (n = 0) then 150 else n
  | None => 150
  end.

(** *** The edits *)

(** [{...c, remark: v}] *)
Definition with_remark (v : string) (c : Character.t) : Character.t :=
  Character.mk (Character.id c) (Character.name c) v (Character.avatar c)
    (Character.description c) (Character.personality c)
    (Character.systemPrompt c) (Character.osSystemPrompt c)
    (Character.showOS c) (Character.useLocalPersona c)
    (Character.userMaskName c) (Character.userMaskAvatar c)
    (Character.userMaskDescription c) (Character.realTimeMode c)
    (Character.chatBackground c) (Character.contextMemory c)
    (Character.historyCount c) (Character.furnaceConfig c)
    (Character.offlineConfig c) (Character.scenarios c)
    (Character.memories c) (Character.messages c) (Character.diaries c)
    (Character.isPinned c) (Character.unread c).

(** [{...c, offlineConfig: oc}] *)
Definition with_offlineConfig (oc : OfflineConfig.t) (c : Character.t)
  : Character.t :=
  Character.mk (Character.id c) (Character.name c) (Character.remark c)
    (Character.avatar c) (Character.description c) (Character.personality c)
    (Character.systemPrompt c) (Character.osSystemPrompt c)
    (Character.showOS c) (Character.useLocalPersona c)
    (Character.userMaskName c) (Character.userMaskAvatar c)
    (Character.userMaskDescription c) (Character.realTimeMode c)
    (Character.chatBackground c) (Character.contextMemory c)
    (Character.historyCount c) (Character.furnaceConfig c)
    oc (Character.scenarios c)
    (Character.memories c) (Character.messages c) (Character.diaries c)
    (Character.isPinned c) (Character.unread c).

Definition with_style (v : string) (oc : OfflineConfig.t) : OfflineConfig.t :=
  OfflineConfig.mk (OfflineConfig.systemPrompt oc) v (OfflineConfig.wordCount oc)
    (OfflineConfig.bgUrl oc) (OfflineConfig.indicatorColor oc).

Definition with_wordCount (n : Z) (oc : OfflineConfig.t) : OfflineConfig.t :=
  OfflineConfig.mk (OfflineConfig.systemPrompt oc) (OfflineConfig.style oc) n
    (OfflineConfig.bgUrl oc) (OfflineConfig.indicatorColor oc).

Definition with_bgUrl (v : string) (oc : OfflineConfig.t) : OfflineConfig.t :=
  OfflineConfig.mk (OfflineConfig.systemPrompt oc) (OfflineConfig.style oc)
    (OfflineConfig.wordCount oc) (Some v) (OfflineConfig.indicatorColor oc).

(** *** The panel *)

(** The [character] prop, and the states [tempCharConfig] and
    [showSettings]. *)
Record Panel := {
  character : Character.t;
  tempCharConfig : Character.t;
  showSettings : bool
}.

(** The calls of the callback prop. *)
Inductive Call := onUpdateCharacter (c : Character.t).

(** What happens to a mounted chat as far as its panel goes: the parent
    passes another [character], on which the effect copies it into
    [tempCharConfig]; the panel is opened or closed; one of its four inputs
    changes; the save button is clicked.  The inputs and the button exist
    only while the panel is shown. *)
Inductive Event :=
| CharacterChanged (c : Character.t)
| OpenSettings
| CloseSettings
| EditRemark (v : string)
| EditStyle (v : string)
| EditWordCount (v : string)
| EditBgUrl (v : string)
| SaveSettings.

(** [useState<Character>(character)] *)
Definition mount (c : Character.t) : Panel :=
  {| character := c; tempCharConfig := c; showSettings := false |}.

Definition with_temp (t : Character.t) (p : Panel) : Panel :=
  {| character := character p; tempCharConfig := t; showSettings := showSettings p |}.

Definition with_shown (b : bool) (p : Panel) : Panel :=
  {| character := character p; tempCharConfig := tempCharConfig p; showSettings := b |}.

Definition edit_offline (f : OfflineConfig.t -> OfflineConfig.t) (p : Panel) : Panel :=
  with_temp (with_offlineConfig (f (Character.offlineConfig (tempCharConfig p)))
               (tempCharConfig p)) p.

Definition step (p : Panel) (ev : Event) : Panel * list Call :=
  match ev with
  | CharacterChanged c =>
      ({| character := c; tempCharConfig := c; showSettings := showSettings p |}, [])
  | OpenSettings => (with_shown true p, [])
  | CloseSettings => (with_shown false p, [])
  | EditRemark v =>
      if showSettings p then (with_temp (with_remark v (tempCharConfig p)) p, [])
      else (p, [])
  | EditStyle v =>
      if showSettings p then (edit_offline (with_style v) p, []) else (p, [])
  | EditWordCount v =>
      if showSettings p
      then (edit_offline (with_wordCount (wordCount_of_input v)) p, [])
      else (p, [])
  | EditBgUrl v =>
      if showSettings p then (edit_offline (with_bgUrl v) p, []) else (p, [])
  | SaveSettings =>
      if showSettings p
      then (with_shown false p, [onUpdateCharacter (tempCharConfig p)])
      else (p, [])
  end.

(** The panel after a sequence of events. *)
Definition run (p : Panel) (evs : list Event) : Panel :=
  foldl (fun p ev => fst (step p ev)) p evs.

(** The character [c] with the four fields of the panel set. *)
Definition edited (remark style : string) (wordCount : Z) (bgUrl : option string)
  (c : Character.t) : Character.t :=
  with_remark remark
    (with_offlineConfig
       (OfflineConfig.mk (OfflineConfig.systemPrompt (Character.offlineConfig c))
          style wordCount bgUrl
          (OfflineConfig.indicatorColor (Character.offlineConfig c))) c).

End ChatSettings.

(** ** The settings application: the form *)

Module SettingsForm.

Import SettingsApp.

(** What an asynchronous handler of the form waits for, with the
    [localSettings] of the render it was started in. *)
Inductive Awaited :=
| models_for (captured : json)
| wallpaper_for (captured : json)
| font_for (captured : json).

(** The [settings] prop with the parent's state behind it, the states
    [localSettings], [loadingModels] and [isSaved], and what is awaited. *)
Record Form := {
  settings : json;
  localSettings : json;
  loadingModels : bool;
  isSaved : bool;
  awaited : list Awaited
}.

(** [{...localSettings, k: v}] *)
Definition with_field (k : string) (v : json) (ls : json) : json :=
  JObj (<[k := v]> (spread (Val ls))).

(** What can happen to the form: the parent passes other settings, on which
    the effect copies them into [localSettings]; an input sets a field;
    the model list is requested and arrives (or the request fails); an image
    or a font file is selected and has been read; the form is saved, and
    two seconds later the save mark goes out. *)
(** The inputs of the form that write a field of [localSettings]. *)
Inductive Input :=
| fullScreenMode (checked : bool)
| apiUrl (v : string)
| apiKey (v : string)
| model (v : string).

Definition field_name (i : Input) : string :=
  match i with
  | fullScreenMode _ => "fullScreenMode"
  | apiUrl _ => "apiUrl"
  | apiKey _ => "apiKey"
  | model _ => "model"
  end.

Definition field_value (i : Input) : json :=
  match i with
  | fullScreenMode checked => JBool checked
  | apiUrl v | apiKey v | model v => JStr v
  end.

Inductive Event :=
| SettingsChanged (s : json)
| EditField (i : Input)
| FetchModels
| Settled (i : nat) (result : option json)
| WallpaperSelected
| FontSelected
| Save
| SavedTimeout.

Definition set_local (ls : json) (f : Form) : Form :=
  {| settings := settings f; localSettings := ls;
     loadingModels := loadingModels f; isSaved := isSaved f;
     awaited := awaited f |}.

Definition set_loading (b : bool) (f : Form) : Form :=
  {| settings := settings f; localSettings := localSettings f;
     loadingModels := b; isSaved := isSaved f; awaited := awaited f |}.

Definition set_saved (b : bool) (f : Form) : Form :=
  {| settings := settings f; localSettings := localSettings f;
     loadingModels := loadingModels f; isSaved := b; awaited := awaited f |}.

Definition set_awaited (l : list Awaited) (f : Form) : Form :=
  {| settings := settings f; localSettings := localSettings f;
     loadingModels := loadingModels f; isSaved := isSaved f; awaited := l |}.

(** The rest of a handler once what it awaits has arrived: the list of
    models, or the result of the read, which [onload] finds in
    [event.target.result]; [None] is a rejected request or a failed read,
    after which nothing of the handler runs. *)
Definition resume (a : Awaited) (result : option json) (f : Form) : Form :=
  match a, result with
  | models_for captured, Some models =>
      set_loading false (set_local (with_field "availableModels" models captured) f)
  | wallpaper_for captured, Some url =>
      if truthy (Val url) then set_local (with_field "wallpaper" url captured) f
      else f
  | font_for captured, Some _ =>
      set_local (with_field "customFont" (JStr "CustomUserFont") captured) f
  | _, None => f
  end.

Definition step (f : Form) (ev : Event) : Form :=
  match ev with
  | SettingsChanged s =>
      {| settings := s; localSettings := s; loadingModels := loadingModels f;
         isSaved := isSaved f; awaited := awaited f |}
  | EditField i =>
      set_local (with_field (field_name i) (field_value i) (localSettings f)) f
  | FetchModels =>
      if loadingModels f then f
      else if truthy (prop (localSettings f) "apiKey")
      then set_awaited (awaited f ++ [models_for (localSettings f)])
             (set_loading true f)
      else f
  | Settled i result =>
      match awaited f !! i with
      | Some a => resume a result (set_awaited (delete i (awaited f)) f)
      | None => f
      end
  | WallpaperSelected =>
      set_awaited (awaited f ++ [wallpaper_for (localSettings f)]) f
  | FontSelected =>
      set_awaited (awaited f ++ [font_for (localSettings f)]) f
  | Save =>
      {| settings := localSettings f; localSettings := localSettings f;
         loadingModels := loadingModels f; isSaved := true;
         awaited := awaited f |}
  | SavedTimeout => set_saved false f
  end.

Definition is_edit (ev : Event) : Prop :=
  match ev with EditField _ => True | _ => False end.

End SettingsForm.

(** ** The settings application: the whole component *)

Module SettingsComponent.

Import SettingsApp.

(** The form; the [characters] prop with the parent's state behind it; the
    states [importMsg] and [pendingImport]; for every backup file that was
    selected and is still being read, the [settings] of the render in which
    it was selected; the backups offered for download; and whether
    [handleFactoryReset] has removed the two stored items and reloaded the
    page, after which the component is gone and no event reaches it. *)
Record Component := {
  form : SettingsForm.Form;
  characters : list json;
  importMsg : ImportMsg;
  pendingImport : option BackupData;
  reading : list json;
  downloads : list BackupData;
  reloaded : bool
}.

(** The [settings] prop. *)
Definition settings_of (c : Component) : json := SettingsForm.settings (form c).

Definition with_form (f : SettingsForm.Form) (c : Component) : Component :=
  {| form := f; characters := characters c; importMsg := importMsg c;
     pendingImport := pendingImport c; reading := reading c;
     downloads := downloads c; reloaded := reloaded c |}.

Definition with_characters (cs : list json) (c : Component) : Component :=
  {| form := form c; characters := cs; importMsg := importMsg c;
     pendingImport := pendingImport c; reading := reading c;
     downloads := downloads c; reloaded := reloaded c |}.

Definition with_importMsg (m : ImportMsg) (c : Component) : Component :=
  {| form := form c; characters := characters c; importMsg := m;
     pendingImport := pendingImport c; reading := reading c;
     downloads := downloads c; reloaded := reloaded c |}.

Definition with_pendingImport (b : option BackupData) (c : Component) : Component :=
  {| form := form c; characters := characters c; importMsg := importMsg c;
     pendingImport := b; reading := reading c;
     downloads := downloads c; reloaded := reloaded c |}.

Definition with_reading (l : list json) (c : Component) : Component :=
  {| form := form c; characters := characters c; importMsg := importMsg c;
     pendingImport := pendingImport c; reading := l;
     downloads := downloads c; reloaded := reloaded c |}.

Definition with_downloads (l : list BackupData) (c : Component) : Component :=
  {| form := form c; characters := characters c; importMsg := importMsg c;
     pendingImport := pendingImport c; reading := reading c;
     downloads := l; reloaded := reloaded c |}.

Definition with_reloaded (b : bool) (c : Component) : Component :=
  {| form := form c; characters := characters c; importMsg := importMsg c;
     pendingImport := pendingImport c; reading := reading c;
     downloads := downloads c; reloaded := b |}.

(** What [confirmImport] and [cancelImport] read of the component, and
    what they leave in it. *)
Definition state_of (c : Component) : State :=
  {| app_settings := SettingsForm.settings (form c);
     app_characters := characters c;
     SettingsApp.localSettings := SettingsForm.localSettings (form c);
     SettingsApp.importMsg := importMsg c;
     SettingsApp.pendingImport := pendingImport c |}.

Definition with_state (st : State) (c : Component) : Component :=
  {| form := {| SettingsForm.settings := app_settings st;
                SettingsForm.localSettings := SettingsApp.localSettings st;
                SettingsForm.loadingModels := SettingsForm.loadingModels (form c);
                SettingsForm.isSaved := SettingsForm.isSaved (form c);
                SettingsForm.awaited := SettingsForm.awaited (form c) |};
     characters := app_characters st;
     importMsg := SettingsApp.importMsg st;
     pendingImport := SettingsApp.pendingImport st;
     reading := reading c; downloads := downloads c; reloaded := reloaded c |}.

(** What can happen to the component: an event of the form; the parent
    passes other characters; the export button is clicked, and three
    seconds after an export its message is cleared; a backup file is
    selected, and has been read ([None] when the read fails); the staged
    import is confirmed or cancelled; the factory reset is clicked and the
    question it asks is answered.  [now] is the reading of [Date.now()]. *)
Inductive Event :=
| OfForm (ev : SettingsForm.Event)
| CharactersChanged (cs : list json)
| ExportBackup (now : Z)
| ExportMsgTimeout
| ImportFileSelected
| FileRead (i : nat) (result : option string) (now : Z)
| ConfirmImport
| CancelImport
| FactoryReset (confirmed : bool).

Section Stepping.

Variable DEFAULT_OFFLINE_PROMPT : string.
Variable JSON_parse : string -> option json.

(** [reader.onload] and [reader.onerror] of [handleImportFileSelect], with
    the [settings] the handler was started with. *)
Definition file_read (captured : json) (result : option string) (now : Z)
    (c : Component) : Component :=
  match result with
  | None => with_importMsg msg_read_failed c
  | Some content =>
      match parse_backup JSON_parse captured content now with
      | inl e => with_importMsg (msg_error e) c
      | inr validBackup =>
          with_importMsg msg_waiting (with_pendingImport (Some validBackup) c)
      end
  end.

Definition step (c : Component) (ev : Event) : Component :=
  if reloaded c then c
  else
    match ev with
    | OfForm ev => with_form (SettingsForm.step (form c) ev) c
    | CharactersChanged cs => with_characters cs c
    | ExportBackup now =>
        match handleExportBackup (settings_of c) (characters c) now with
        | Some backupData =>
            with_importMsg msg_exported (with_downloads (downloads c ++ [backupData]) c)
        | None => c
        end
    | ExportMsgTimeout => with_importMsg msg_none c
    | ImportFileSelected =>
        with_reading (reading c ++ [settings_of c])
          (with_pendingImport None (with_importMsg msg_parsing c))
    | FileRead i result now =>
        match reading c !! i with
        | Some captured =>
            file_read captured result now (with_reading (delete i (reading c)) c)
        | None => c
        end
    | ConfirmImport => with_state (confirmImport DEFAULT_OFFLINE_PROMPT (state_of c)) c
    | CancelImport => with_state (cancelImport (state_of c)) c
    | FactoryReset confirmed => if confirmed then with_reloaded true c else c
    end.

End Stepping.


End SettingsComponent.

(** ** More sample data *)

Module MoreSample.

Definition chat_character : Character.t :=
  Sample.character 10 None [Sample.message "1" user "a"].

(** A character whose word count is 1e21. *)
Definition verbose_character : Character.t :=
  ChatSettings.with_offlineConfig
    (ChatSettings.with_wordCount 1000000000000000000000
       (Character.offlineConfig (Sample.character 10 None [])))
    (Sample.character 10 None []).

Definition panel_events : list ChatSettings.Event :=
  [ ChatSettings.OpenSettings; ChatSettings.EditRemark "Kitty";
    ChatSettings.EditWordCount "200"; ChatSettings.EditBgUrl "bg.png" ].

Definition form : SettingsForm.Form :=
  SettingsForm.Build_Form Sample.app_settings
    (SettingsApp.JObj (<["apiKey" := SettingsApp.JStr "key"]>
                      (<["apiUrl" := SettingsApp.JStr "https://api.example/v1"]> ∅)))
    false false [].

Definition models : SettingsApp.json :=
  SettingsApp.JArr [SettingsApp.JStr "m1"; SettingsApp.JStr "m2"].

Definition broken_backup : SettingsApp.BackupData :=
  SettingsApp.Build_BackupData (SettingsApp.JNum 1) "small_phone_backup"
    (SettingsApp.JNum 7)
    (SettingsApp.JObj (<["model" := SettingsApp.JStr "other"]> ∅))
    [Sample.stored_character; SettingsApp.JNull].

Definition staged (b : SettingsApp.BackupData) : SettingsApp.State :=
  SettingsApp.Build_State Sample.app_settings [Sample.chatty_character]
    Sample.app_settings SettingsApp.msg_waiting (Some b).


Definition settings_only : SettingsApp.json :=
  SettingsApp.JObj (<["settings" :=
                        SettingsApp.JObj (<["model" := SettingsApp.JStr "other"]> ∅)]> ∅).


End MoreSample.

(** * Properties *)

Import ChatInterface.
Import Spec.

(** ** Slicing *)

Lemma slice_zero {A} (l : list A) : slice (- 0) l = l.
Proof.
  unfold slice. case_decide; [lia|].
  replace (Z.to_nat _) with 0%nat by lia. done.
Qed.

Lemma slice_last {A} (n : Z) (l : list A) :
  1 <= n -> slice (- n) l = last_n n l.
Proof.
  intros Hn. unfold slice, last_n. case_decide; [|lia].
  f_equal. lia.
Qed.

(** ** Sending: the guard and the shape of a send *)

Section Sending.

Variable interpolatePrompt : string -> PromptVars -> string.

Local Abbreviation handleSendMessage := (handleSendMessage interpolatePrompt).
Local Abbreviation messagesPayload := (messagesPayload interpolatePrompt).
Local Abbreviation systemPrompt := (systemPrompt interpolatePrompt).

Lemma send_accepted p now_id now_ts :
  accepted p ->
  handleSendMessage p now_id now_ts =
    ([ onAddMessage (Character.id (character p)) (userMsg p now_id now_ts);
       setInputText "";
       setGlobalGenerating true;
       generateChatCompletion
         (messagesPayload (character p) (userMsg p now_id now_ts)) (settings p) ],
     Some {| sus_character := character p;
             sus_userMsg := userMsg p now_id now_ts |}).
Proof.
  intros [Hin Hgen]. unfold ChatInterface.handleSendMessage.
  rewrite Hgen. destruct (trim (inputText p)); [done|]. reflexivity.
Qed.

Lemma send_refused p now_id now_ts :
  ~ accepted p -> handleSendMessage p now_id now_ts = ([], None).
Proof.
  intros Hn. unfold ChatInterface.handleSendMessage.
  destruct (trim (inputText p)) eqn:Ht; [done|].
  destruct (isGlobalGenerating p) eqn:Hg; [done|].
  exfalso. apply Hn. split; [by rewrite Ht | done].
Qed.

Lemma history_spec (c : Character.t) :
  1 <= Character.historyCount c ->
  history c =
    (fun m => Build_ChatMessage
                (if decide (Message.role m = model) then "assistant"
                 else role_string (Message.role m))
                (Message.content m))
      <$> last_n (Character.historyCount c) (Character.messages c).
Proof.
  intros Hn. unfold history. rewrite slice_last by done.
  apply list_fmap_ext. intros _ m _.
  destruct (Message.role m); by case_decide.
Qed.

(** With a history size of at least one, the payload is the window the
    specification describes. *)
Lemma history_window_positive (p : Props) now_id now_ts :
  1 <= Character.historyCount (character p) ->
  messagesPayload (character p) (userMsg p now_id now_ts) =
    Spec.windowed_payload (systemPrompt (character p)) (character p) (inputText p).
Proof.
  intros Hn. unfold ChatInterface.messagesPayload, conversation, Spec.windowed_payload.
  by rewrite history_spec.
Qed.

(** With a history size of zero the whole history is sent. *)
Lemma history_zero (c : Character.t) :
  Character.historyCount c = 0 ->
  length (history c) = length (Character.messages c).
Proof.
  intros Hn. unfold history. rewrite Hn, slice_zero. apply length_fmap.
Qed.

(** C1 (history windowing), evaluated at [historyCount = 0] with two stored
    messages: the request carries the system prompt, both stored messages
    and the new user message, whereas the window of the last zero messages
    that the specification describes holds the system prompt and the new
    user message only. *)
Theorem history_window_zero_sends_all :
  let c := Sample.character 0 None
             [Sample.message "1" user "a"; Sample.message "2" model "b"] in
  let p := Sample.props c false "hi" in
  exists u payload,
    handleSendMessage p 5 6 =
      ([ onAddMessage "c1" u; setInputText ""; setGlobalGenerating true;
         generateChatCompletion payload Sample.settings ],
       Some {| sus_character := c; sus_userMsg := u |})
    /\ payload = [ Build_ChatMessage "system" (systemPrompt c);
                   Build_ChatMessage "user" "a";
                   Build_ChatMessage "assistant" "b";
                   Build_ChatMessage "user" "hi" ]
    /\ Spec.windowed_payload (systemPrompt c) c "hi" =
         [ Build_ChatMessage "system" (systemPrompt c);
           Build_ChatMessage "user" "hi" ]
    /\ payload <> Spec.windowed_payload (systemPrompt c) c "hi".
Proof.
  intros c p. eexists _, _. split; [reflexivity|].
  split; [reflexivity|]. split; [reflexivity|]. discriminate.
Qed.

Lemma bgUrl_truthy_spec (c : Character.t) :
  bgUrl_truthy c = true <-> offline_mode c.
Proof.
  unfold bgUrl_truthy, offline_mode.
  destruct (OfflineConfig.bgUrl _) as [[|a url]|]; simpl; split.
  - done.
  - intros (? & [= <-] & ?). done.
  - intros _. eexists. split; [done|]. done.
  - done.
  - done.
  - intros (? & ? & _). done.
Qed.

(** C2 (multi-mode context assembly): for every send that goes through, the
    template interpolated into the system prompt of the request is
    [offlineConfig.systemPrompt] exactly when [offlineConfig.bgUrl] is a
    non-empty string and [character.systemPrompt] otherwise; the user
    message and the reply of the turn carry the mode [offline] in the first
    case and [online] in the second; [theater] is a mode a message can
    carry. *)
Theorem mode_selects_template_and_tag (p : Props) now_id now_ts :
  accepted p ->
  let c := character p in
  let u := userMsg p now_id now_ts in
  exists vars conversation k,
    handleSendMessage p now_id now_ts =
      ([ onAddMessage (Character.id c) u; setInputText "";
         setGlobalGenerating true;
         generateChatCompletion
           (Build_ChatMessage "system"
              (interpolatePrompt (systemPromptTemplate c) vars) :: conversation)
           (settings p) ],
       Some k)
    /\ (forall r n_id n_ts,
          handleSendMessage_resume k (Resolved r) n_id n_ts =
            [ onAddMessage (Character.id c) (aiMsg u r n_id n_ts);
              setGlobalGenerating false ])
    /\ (offline_mode c ->
          systemPromptTemplate c = OfflineConfig.systemPrompt (Character.offlineConfig c)
          /\ Message.mode u = Some offline
          /\ forall r n_id n_ts, Message.mode (aiMsg u r n_id n_ts) = Some offline)
    /\ (~ offline_mode c ->
          systemPromptTemplate c = Character.systemPrompt c
          /\ Message.mode u = Some online
          /\ forall r n_id n_ts, Message.mode (aiMsg u r n_id n_ts) = Some online)
    /\ (exists m : Message.t, Message.mode m = Some theater).
Proof.
  intros Hacc c u. eexists _, _, _.
  split; [by apply send_accepted|].
  split; [done|].
  unfold systemPromptTemplate, isOfflineMode. subst u. simpl.
  pose proof (bgUrl_truthy_spec c) as Hb. fold c.
  destruct (bgUrl_truthy c).
  - split; [done|]. split; [intros Hn; exfalso; apply Hn; by apply Hb|].
    by exists (Message.mk "" user "" None 0 (Some theater) None None None None None).
  - split; [intros Ho; apply Hb in Ho; done|]. split; [done|].
    by exists (Message.mk "" user "" None 0 (Some theater) None None None None None).
Qed.

(** C7 (prompt template interpolation), with the word count as
    [toString()] writes it: for every send that goes through, the one
    request issued carries as its first element the system message whose
    content is [interpolatePrompt] applied to the selected template and to
    the bindings [ai_name = character.name],
    [user_mask_name = character.userMaskName],
    [personality = character.personality],
    [style = character.offlineConfig.style] and
    [word_count = character.offlineConfig.wordCount.toString()]; the latter
    is the decimal string of the word count whenever the word count is a
    safe integer, and then the bindings are those the specification
    words. *)
Theorem system_prompt_interpolation (p : Props) now_id now_ts :
  accepted p ->
  let c := character p in
  let bindings :=
    {| ai_name := Character.name c;
       user_mask_name := Character.userMaskName c;
       personality := Character.personality c;
       style := OfflineConfig.style (Character.offlineConfig c);
       word_count :=
         Number_toString (OfflineConfig.wordCount (Character.offlineConfig c)) |} in
  (exists before conversation k,
     handleSendMessage p now_id now_ts =
       (before ++
        [ generateChatCompletion
            (Build_ChatMessage "system"
               (interpolatePrompt (systemPromptTemplate c) bindings)
             :: conversation)
            (settings p) ],
        Some k)
     /\ (forall e, e ∈ before -> forall m s, e <> generateChatCompletion m s))
  /\ (Z.abs (OfflineConfig.wordCount (Character.offlineConfig c)) <= 9007199254740991 ->
      bindings = stated_bindings c).
Proof.
  intros Hacc c bindings. split.
  - exists [ onAddMessage (Character.id c) (userMsg p now_id now_ts);
             setInputText ""; setGlobalGenerating true ].
    eexists _, _. split; [by apply send_accepted|].
    intros e He m s.
    repeat (apply elem_of_cons in He as [->|He]; [done|]).
    by apply elem_of_nil in He.
  - intros Hsafe. subst bindings. unfold stated_bindings, Number_toString.
    by rewrite bool_decide_eq_true_2 by lia.
Qed.

End Sending.

(** ** Turns: a send and the settling of its request *)

Lemma addMessage_twice charId u a cs :
  addMessage charId a (addMessage charId u cs) =
    (fun c => if decide (Character.id c = charId)
              then Character.with_messages (Character.messages c ++ [u; a]) c
              else c) <$> cs.
Proof.
  unfold addMessage. rewrite <- list_fmap_compose.
  apply list_fmap_ext. intros _ c _. simpl.
  destruct (decide (Character.id c = charId)) as [Hid|Hid].
  - destruct c; simpl in *. rewrite decide_True by done.
    unfold Character.with_messages; simpl. by rewrite <- app_assoc.
  - by rewrite decide_False.
Qed.

Section Turns.

Variable interpolatePrompt : string -> PromptVars -> string.

Local Abbreviation handleSendMessage := (handleSendMessage interpolatePrompt).
Local Abbreviation step := (step interpolatePrompt).
Local Abbreviation reachable := (reachable interpolatePrompt).

Lemma step_send_accepted w i c now_id now_ts :
  w_characters w !! i = Some c ->
  accepted (props_in w c) ->
  step w (Send i now_id now_ts) =
    {| w_characters :=
         addMessage (Character.id c) (userMsg (props_in w c) now_id now_ts)
           (w_characters w);
       w_settings := w_settings w;
       w_generating := true;
       w_inputText := "";
       w_requests := w_requests w ++
         [ {| sus_character := c;
              sus_userMsg := userMsg (props_in w c) now_id now_ts |} ] |}.
Proof.
  intros Hc Hacc. unfold ChatInterface.step. rewrite Hc.
  by rewrite send_accepted.
Qed.

Lemma step_send_refused w i c now_id now_ts :
  w_characters w !! i = Some c ->
  ~ accepted (props_in w c) ->
  step w (Send i now_id now_ts) = w.
Proof.
  intros Hc Hacc. unfold ChatInterface.step. rewrite Hc.
  by rewrite send_refused.
Qed.

(** C4 (message append): a turn that completes successfully, that is a send
    that goes through followed by the resolution of its request, calls
    [onAddMessage] exactly twice, first with the user message and then with
    the reply, whose role is [model] and whose mode is that of the user
    message; with the parent appending, the character's history afterwards
    is the history before followed by these two messages, and no other
    character changes. *)
Theorem turn_appends_user_then_reply w i c now_id now_ts r n_id n_ts :
  w_characters w !! i = Some c ->
  accepted (props_in w c) ->
  let w1 := step w (Send i now_id now_ts) in
  let w2 := step w1 (Settle (length (w_requests w)) (Resolved r) n_id n_ts) in
  exists u a es1 k,
    handleSendMessage (props_in w c) now_id now_ts = (es1, Some k)
    /\ filter is_onAddMessage (es1 ++ handleSendMessage_resume k (Resolved r) n_id n_ts)
       = [ onAddMessage (Character.id c) u; onAddMessage (Character.id c) a ]
    /\ Message.role u = user /\ Message.content u = w_inputText w
    /\ Message.role a = model /\ Message.content a = r
    /\ Message.mode a = Message.mode u
    /\ w_characters w2 =
         (fun c' => if decide (Character.id c' = Character.id c)
                    then Character.with_messages (Character.messages c' ++ [u; a]) c'
                    else c') <$> w_characters w.
Proof.
  intros Hc Hacc w1 w2.
  exists (userMsg (props_in w c) now_id now_ts),
         (aiMsg (userMsg (props_in w c) now_id now_ts) r n_id n_ts).
  eexists _, _. split; [by apply send_accepted|].
  split; [reflexivity|]. do 5 (split; [reflexivity|]).
  subst w2 w1. rewrite (step_send_accepted _ _ _ _ _ Hc Hacc).
  unfold ChatInterface.step. simpl.
  rewrite list_lookup_middle by done. simpl.
  by rewrite addMessage_twice.
Qed.

(** *** One request at a time *)

Lemma one_in_flight_step w ev : one_in_flight w -> one_in_flight (step w ev).
Proof.
  intros [Hlen Hflag]. destruct ev as [s|i now_id now_ts|i o now_id now_ts].
  - done.
  - unfold ChatInterface.step. destruct (w_characters w !! i) as [c|]; [|done].
    unfold ChatInterface.handleSendMessage. simpl.
    destruct (negb _ || w_generating w) eqn:Hguard; [done|].
    apply orb_false_elim in Hguard as [_ Hgen].
    destruct (w_requests w) as [|k' rs] eqn:Hrs.
    + split; simpl; [rewrite Hrs; simpl; lia | done].
    + rewrite Hflag in Hgen; done.
  - unfold ChatInterface.step. destruct (w_requests w !! i) as [k|] eqn:Hk; [|done].
    destruct (w_requests w) as [|k' [|k'' rs]]; simpl in *; [done| |lia].
    destruct i; [|done]. simpl. destruct o; split; simpl; (lia || done).
Qed.

Lemma one_in_flight_reachable w : reachable w -> one_in_flight w.
Proof.
  intros (w0 & evs & [Hgen Hreq] & ->).
  assert (one_in_flight w0) as Hinv.
  { split; rewrite Hreq; [simpl; lia | done]. }
  clear Hgen Hreq. revert w0 Hinv.
  induction evs as [|ev evs IH]; intros w0 Hinv; [done|].
  simpl. apply IH. by apply one_in_flight_step.
Qed.

(** C5 (sequential request and response): [handleSendMessage] does nothing
    while [isGlobalGenerating] is set; when it issues a request it has set
    the flag just before; when the request resolves or throws the resumed
    handler ends by clearing the flag; so in every world reachable from a
    start without a generation in progress at most one request is in flight,
    the flag is set while it is, and a send in that time starts no second
    request. *)
Theorem one_request_in_flight :
  (forall p now_id now_ts,
     isGlobalGenerating p = true -> handleSendMessage p now_id now_ts = ([], None))
  /\ (forall p now_id now_ts es k,
        handleSendMessage p now_id now_ts = (es, Some k) ->
        exists before payload,
          es = before ++ [setGlobalGenerating true;
                          generateChatCompletion payload (settings p)]
          /\ forall e, e ∈ before -> forall m s, e <> generateChatCompletion m s)
  /\ (forall k o n_id n_ts,
        exists before,
          handleSendMessage_resume k o n_id n_ts = before ++ [setGlobalGenerating false])
  /\ (forall w, reachable w ->
        (length (w_requests w) <= 1)%nat
        /\ (w_requests w <> [] -> w_generating w = true))
  /\ (forall w i now_id now_ts,
        reachable w -> w_requests w <> [] -> step w (Send i now_id now_ts) = w).
Proof.
  split; [|split; [|split; [|split]]].
  - intros p now_id now_ts Hgen. unfold ChatInterface.handleSendMessage.
    rewrite Hgen. by rewrite orb_true_r.
  - intros p now_id now_ts es k. unfold ChatInterface.handleSendMessage.
    destruct (negb _ || _); [done|]. intros [= <- <-].
    exists [ onAddMessage (Character.id (character p)) (userMsg p now_id now_ts);
             setInputText "" ].
    eexists. split; [reflexivity|]. intros e He m s.
    repeat (apply elem_of_cons in He as [->|He]; [done|]).
    by apply elem_of_nil in He.
  - intros k [r|] n_id n_ts; eexists [_]; reflexivity.
  - intros w Hw. by apply one_in_flight_reachable.
  - intros w i now_id now_ts Hw Hreq.
    destruct (one_in_flight_reachable w Hw) as [_ Hflag].
    unfold ChatInterface.step. destruct (w_characters w !! i) as [c|]; [|done].
    unfold ChatInterface.handleSendMessage. simpl.
    rewrite (Hflag Hreq). by rewrite orb_true_r.
Qed.

End Turns.

(** *** Concrete sends *)

Lemma mode_selects_template_and_tag_witness :
  accepted (Sample.props (Sample.character 10 (Some "bg.png") []) false "hi")
  /\ exists vars conversation k,
       handleSendMessage Sample.interpolate
         (Sample.props (Sample.character 10 (Some "bg.png") []) false "hi") 5 6 =
         ([ onAddMessage "c1"
              (userMsg (Sample.props (Sample.character 10 (Some "bg.png") []) false "hi") 5 6);
            setInputText ""; setGlobalGenerating true;
            generateChatCompletion
              (Build_ChatMessage "system"
                 (Sample.interpolate "OFFLINE {{ai_name}}" vars) :: conversation)
              Sample.settings ],
          Some k).
Proof.
  split; [by split|].
  destruct (mode_selects_template_and_tag Sample.interpolate
              (Sample.props (Sample.character 10 (Some "bg.png") []) false "hi") 5 6)
    as (vars & conv & k & Hsend & _); [by split|].
  by exists vars, conv, k.
Defined.

Lemma system_prompt_interpolation_witness :
  accepted (Sample.props (Sample.character 10 None []) false " hi ")
  /\ exists before conversation k,
       handleSendMessage Sample.interpolate
         (Sample.props (Sample.character 10 None []) false " hi ") 5 6 =
         (before ++
          [ generateChatCompletion
              (Build_ChatMessage "system" "ONLINE {{ai_name}}|Mew|150" :: conversation)
              Sample.settings ],
          Some k).
Proof.
  split; [by split|].
  destruct (system_prompt_interpolation Sample.interpolate
              (Sample.props (Sample.character 10 None []) false " hi ") 5 6)
    as [(before & conv & k & Hsend & _) _]; [by split|].
  by exists before, conv, k.
Defined.

(** C7 as the specification words it fails on a character whose word
    count is 1e21: the request binds [word_count] to ["1e+21"], which is not
    the decimal string of the word count. *)
Lemma word_count_in_exponent_notation :
  let c := MoreSample.verbose_character in
  let p := Sample.props c false "hi" in
  accepted p
  /\ snd (handleSendMessage Sample.interpolate p 5 6) <> None
  /\ (forall before first conversation s k,
        handleSendMessage Sample.interpolate p 5 6 =
          (before ++ [generateChatCompletion (first :: conversation) s], Some k) ->
        first = Build_ChatMessage "system"
                  (Sample.interpolate (systemPromptTemplate c)
                     {| ai_name := "Mew"; user_mask_name := "Me";
                        personality := "curious"; style := "novel";
                        word_count := "1e+21" |}))
  /\ word_count (stated_bindings c) = "1000000000000000000000"
  /\ ~ (exists before conversation k,
          handleSendMessage Sample.interpolate p 5 6 =
            (before ++
             [ generateChatCompletion
                 (Build_ChatMessage "system"
                    (Sample.interpolate (systemPromptTemplate c) (stated_bindings c))
                  :: conversation)
                 (settings p) ],
             Some k)).
Proof.
  intros c p.
  assert (handleSendMessage Sample.interpolate p 5 6 =
            ([ onAddMessage "c1" (userMsg p 5 6); setInputText "";
               setGlobalGenerating true ]
             ++ [ generateChatCompletion
                    [ Build_ChatMessage "system" "ONLINE {{ai_name}}|Mew|1e+21";
                      Build_ChatMessage "user" "hi" ]
                    Sample.settings ],
             Some {| sus_character := c; sus_userMsg := userMsg p 5 6 |})) as Hsend.
  { vm_compute. reflexivity. }
  split; [by split|]. split; [by rewrite Hsend|]. split; [|split; [reflexivity|]].
  - intros before first conversation s k Heq. rewrite Hsend in Heq.
    apply (f_equal fst) in Heq. cbn [fst] in Heq.
    apply app_inj_tail in Heq as [_ Heq]. by injection Heq as <- _ _.
  - intros (before & conversation & k & Heq). rewrite Hsend in Heq.
    apply (f_equal fst) in Heq. cbn [fst] in Heq.
    apply app_inj_tail in Heq as [_ Heq].
    injection Heq as Heq _. vm_compute in Heq. discriminate.
Qed.

Lemma turn_appends_user_then_reply_witness :
  let c := Sample.character 10 None [Sample.message "1" user "a"] in
  let w := Sample.world c "hi" in
  accepted (props_in w c)
  /\ exists u a,
       Message.role u = user /\ Message.role a = model
       /\ Character.messages <$>
            w_characters
              (step Sample.interpolate
                 (step Sample.interpolate w (Send 0 5 6))
                 (Settle 0 (Resolved "hello") 7 8))
          = [ [Sample.message "1" user "a"; u; a] ].
Proof.
  intros c w. split; [by split|].
  destruct (turn_appends_user_then_reply Sample.interpolate w 0 c 5 6 "hello" 7 8)
    as (u & a & es1 & k & _ & _ & Hu & _ & Ha & _ & _ & Hchars); [done|by split|].
  exists u, a. split; [done|]. split; [done|].
  change (length (w_requests w)) with 0%nat in Hchars.
  rewrite Hchars. reflexivity.
Defined.

(** ** The furnace *)

Lemma last_n_suffix {A} (n : Z) (l : list A) :
  exists pre, l = pre ++ last_n n l.
Proof. unfold last_n. eexists. symmetry. apply take_drop. Qed.

Lemma last_n_length {A} (n : Z) (l : list A) :
  length (last_n n l) = Nat.min (Z.to_nat n) (length l).
Proof. unfold last_n. rewrite length_drop. lia. Qed.

(** C3 (threshold-triggered furnace summarization): when [autoEnabled] is
    set and the number of stored messages has reached [autoThreshold], the
    last [autoScope] messages are summarized into one new card, which is
    appended to [character.memories]; the earlier cards and the messages
    stay as they are. *)
Theorem furnace_appends_summary (summarize : list Message.t -> MemoryCard.t)
  (c : Character.t) :
  FurnaceConfig.autoEnabled (Character.furnaceConfig c) = true ->
  FurnaceConfig.autoThreshold (Character.furnaceConfig c)
    <= Z.of_nat (length (Character.messages c)) ->
  exists earlier window,
    Character.messages c = earlier ++ window
    /\ length window =
         Nat.min (Z.to_nat (FurnaceConfig.autoScope (Character.furnaceConfig c)))
                 (length (Character.messages c))
    /\ Character.memories (Furnace.autoFurnace summarize c) =
         Character.memories c ++ [summarize window]
    /\ Character.messages (Furnace.autoFurnace summarize c) = Character.messages c.
Proof.
  intros Hen Hth.
  destruct (last_n_suffix (FurnaceConfig.autoScope (Character.furnaceConfig c))
              (Character.messages c)) as [earlier Hsplit].
  exists earlier, (last_n (FurnaceConfig.autoScope (Character.furnaceConfig c))
                     (Character.messages c)).
  split; [done|]. split; [apply last_n_length|].
  unfold Furnace.autoFurnace. rewrite Hen. rewrite bool_decide_eq_true_2 by done.
  done.
Qed.

Lemma furnace_appends_summary_witness :
  let card := fun ms : list Message.t =>
    MemoryCard.mk "m" None "chat" None (default "" (Message.content <$> last ms)) 0 None in
  let c := Sample.character 10 None
             [Sample.message "1" user "a"; Sample.message "2" model "b"] in
  FurnaceConfig.autoEnabled (Character.furnaceConfig c) = true
  /\ MemoryCard.content <$> Character.memories (Furnace.autoFurnace card c) = ["b"].
Proof.
  intros card c. split; [done|].
  destruct (furnace_appends_summary card c) as (earlier & window & _ & _ & Hm & _);
    [done | simpl; lia |].
  reflexivity.
Defined.

(** ** Backups *)

Import SettingsApp.
Import BackupSpec.

Lemma prop_insert_eq (m : gmap string json) (k : string) (j : json) :
  prop (JObj (<[k := j]> m)) k = Val j.
Proof. unfold prop. by rewrite lookup_insert_eq. Qed.

Lemma prop_insert_ne (m : gmap string json) (k k' : string) (j : json) :
  k <> k' -> prop (JObj (<[k := j]> m)) k' = prop (JObj m) k'.
Proof. intros Hk. unfold prop. by rewrite lookup_insert_ne. Qed.

Lemma prop_delete_eq (m : gmap string json) (k : string) :
  prop (JObj (delete k m)) k = undefined.
Proof. unfold prop. by rewrite lookup_delete_eq. Qed.

Lemma prop_delete_ne (m : gmap string json) (k k' : string) :
  k <> k' -> prop (JObj (delete k m)) k' = prop (JObj m) k'.
Proof. intros Hk. unfold prop. by rewrite lookup_delete_ne. Qed.

Ltac prop_inserts :=
  repeat first [ rewrite prop_insert_eq | rewrite prop_insert_ne by done
               | rewrite prop_delete_eq | rewrite prop_delete_ne by done ].

Lemma truthy_string_spec (s : string) : truthy_string s = true <-> s <> "".
Proof. destruct s; simpl; split; done. Qed.

(** *** Selecting a file *)

Section Selecting.

Variable JSON_parse : string -> option json.




End Selecting.


(** *** Confirming an import *)

Lemma has_all_union (m defaults : gmap string json) :
  has_all defaults (Val (JObj (m ∪ defaults))).
Proof.
  exists (m ∪ defaults). split; [done|]. intros k Hk.
  apply lookup_union_is_Some. by right.
Qed.

Lemma filled_union (defaults : gmap string json) (v : value) :
  absent_or_object v ->
  filled defaults v (Val (JObj (spread (Val (or_else v (JObj ∅))) ∪ defaults))).
Proof.
  intros Hv. eexists. split; [done|]. intros k.
  rewrite lookup_union.
  destruct Hv as [-> | [m ->]]; simpl.
  - rewrite lookup_empty. by destruct (defaults !! k).
  - by destruct (m !! k), (defaults !! k).
Qed.

Lemma array_or_empty_is_array (v : value) :
  is_array (Val match v with Val (JArr l) => JArr l | _ => JArr [] end).
Proof. destruct v as [|[]]; by eexists. Qed.

Section Confirming.

Variable DEFAULT_OFFLINE_PROMPT : string.

Local Abbreviation sanitize := (sanitize DEFAULT_OFFLINE_PROMPT).
Local Abbreviation confirmImport := (confirmImport DEFAULT_OFFLINE_PROMPT).
Local Abbreviation DEFAULT_OFFLINE_CONFIG := (DEFAULT_OFFLINE_CONFIG DEFAULT_OFFLINE_PROMPT).

Lemma sanitize_not_null (c : json) : c <> JNull -> is_Some (sanitize c).
Proof.
  intros Hc. unfold SettingsApp.sanitize.
  destruct c; [done|..]; simpl; eexists; reflexivity.
Qed.

(** The object a character that is not [null] is sanitized into. *)
Lemma sanitize_Some (c c' : json) :
  sanitize c = Some c' ->
  c <> JNull
  /\ c' = JObj
      (<["furnaceConfig" :=
           JObj (spread (Val (or_else (prop c "furnaceConfig") (JObj ∅)))
                 ∪ DEFAULT_FURNACE_CONFIG)]>
      (<["offlineConfig" :=
           JObj (spread (Val (or_else (prop c "offlineConfig") (JObj ∅)))
                 ∪ DEFAULT_OFFLINE_CONFIG)]>
      (<["scenarios" := match prop c "scenarios" with Val (JArr l) => JArr l | _ => JArr [] end]>
      (<["diaries" := match prop c "diaries" with Val (JArr l) => JArr l | _ => JArr [] end]>
      (<["memories" := match prop c "memories" with Val (JArr l) => JArr l | _ => JArr [] end]>
      (<["messages" := match prop c "messages" with Val (JArr l) => JArr l | _ => JArr [] end]>
      (<["useLocalPersona" := nullish_or (prop c "useLocalPersona") (JBool false)]>
      (<["realTimeMode" := nullish_or (prop c "realTimeMode") (JBool false)]>
      (<["showOS" := nullish_or (prop c "showOS") (JBool false)]>
      (spread (Val c))))))))))).
Proof.
  unfold SettingsApp.sanitize. destruct c; simpl; try done; by intros [= <-].
Qed.

Lemma sanitize_sanitized (c c' : json) :
  sanitize c = Some c' -> sanitized DEFAULT_OFFLINE_CONFIG c c'.
Proof.
  intros [_ ->]%sanitize_Some. unfold sanitized. prop_inserts.
  split; [apply has_all_union|]. split; [apply filled_union|].
  split; [apply has_all_union|]. split; [apply filled_union|].
  do 4 (split; [apply array_or_empty_is_array|]). done.
Qed.

Lemma mapM_sanitize (cs : list json) :
  Forall (fun c => c <> JNull) cs ->
  exists cs', mapM sanitize cs = Some cs'
              /\ Forall2 (sanitized DEFAULT_OFFLINE_CONFIG) cs cs'.
Proof.
  intros Hcs.
  assert (is_Some (mapM sanitize cs)) as [cs' Hcs'].
  { apply mapM_is_Some. eapply Forall_impl; [done|]. apply sanitize_not_null. }
  exists cs'. split; [done|].
  apply mapM_Some in Hcs'. eapply Forall2_impl; [done|].
  intros c c'. apply sanitize_sanitized.
Qed.

(** C10 (import sanitization invariant), with the flags as the handler
    leaves them: [confirmImport] replaces the characters by the sanitized
    characters of the staged backup (none of which is [null]); each of them
    has a [furnaceConfig] and an [offlineConfig] in which every default
    field is defined, the fields missing from the backup's configuration
    being those of [DEFAULT_FURNACE_CONFIG] and [DEFAULT_OFFLINE_CONFIG];
    its [scenarios], [diaries], [memories] and [messages] are arrays; and
    each of [useLocalPersona], [realTimeMode] and [showOS] is [false] where
    the backup has no value or [null] and the backup's value otherwise. *)
Theorem import_sanitizes (st : State) (pending : BackupData) :
  pendingImport st = Some pending ->
  Forall (fun c => c <> JNull) (characters pending) ->
  Forall2 (sanitized DEFAULT_OFFLINE_CONFIG)
    (characters pending) (app_characters (confirmImport st))
  /\ pendingImport (confirmImport st) = None
  /\ importMsg (confirmImport st) = msg_imported.
Proof.
  intros Hp Hcs. destruct (mapM_sanitize _ Hcs) as (cs' & Hm & Hall).
  unfold SettingsApp.confirmImport. rewrite Hp, Hm. done.
Qed.

End Confirming.

Lemma import_sanitizes_witness :
  let st := handleImportFileSelect (Sample.reads Sample.numeric_flag)
              (Sample.state []) (Loaded Sample.numeric_flag_text) 0 in
  let pending :=
    {| version := JNum 1; type := "small_phone_backup"; timestamp := JNum 0;
       settings := Sample.app_settings;
       characters := [ JObj (<["id" := JStr "c1"]>
                            (<["useLocalPersona" := JNum 1]> ∅)) ] |} in
  pendingImport st = Some pending
  /\ Forall (fun c => c <> JNull) (characters pending)
  /\ Forall2 (sanitized (DEFAULT_OFFLINE_CONFIG Sample.offline_prompt))
       (characters pending)
       (app_characters (confirmImport Sample.offline_prompt st))
  /\ pendingImport (confirmImport Sample.offline_prompt st) = None
  /\ importMsg (confirmImport Sample.offline_prompt st) = msg_imported.
Proof.
  intros st pending.
  assert (pendingImport st = Some pending) as Hp by reflexivity.
  assert (Forall (fun c => c <> JNull) (characters pending)) as Hcs
    by (by repeat constructor).
  split; [exact Hp|]. split; [exact Hcs|].
  exact (import_sanitizes Sample.offline_prompt st pending Hp Hcs).
Defined.

(** C10 as the specification words it fails on the backup
    [{"characters":[{"id":"c1","useLocalPersona":1}]}]: the imported
    character keeps the number 1 as its [useLocalPersona], which is no
    boolean. *)
Lemma numeric_flag_stays_numeric :
  let st := handleImportFileSelect (Sample.reads Sample.numeric_flag)
              (Sample.state []) (Loaded Sample.numeric_flag_text) 0 in
  exists c', app_characters (confirmImport Sample.offline_prompt st) = [c']
             /\ prop c' "useLocalPersona" = Val (JNum 1)
             /\ ~ sanitized_stated (DEFAULT_OFFLINE_CONFIG Sample.offline_prompt) c'.
Proof.
  intros st. eexists. split; [reflexivity|]. split; [reflexivity|].
  intros (_ & _ & _ & _ & _ & _ & [b Hb] & _). vm_compute in Hb. discriminate.
Qed.

(** *** Exporting *)

(** A function that succeeds on every element satisfying [P], with a result
    related by [R], maps the lists of such elements to related lists. *)
Lemma mapM_related {A B} (f : A -> option B) (P : A -> Prop) (R : A -> B -> Prop)
  (l : list A) :
  (forall x, P x -> exists y, f x = Some y /\ R x y) ->
  Forall P l ->
  exists k, mapM f l = Some k /\ Forall2 R l k.
Proof.
  intros Hf Hl. induction Hl as [|x l Hx Hl (k & Hk & HR)].
  - by exists [].
  - destruct (Hf x Hx) as (y & Hy & Hxy).
    exists (y :: k). split; [|by constructor].
    apply mapM_Some. constructor; [done|]. by apply mapM_Some.
Qed.

Lemma not_elem_of_cons_ne (k k' : string) (ks : list string) :
  k ∉ k' :: ks -> k' <> k /\ k ∉ ks.
Proof. intros H. apply not_elem_of_cons in H as [? ?]. split; [congruence|done]. Qed.

Lemma slice_last_50 {A} (l : list A) : slice (-50) l = last_n 50 l.
Proof. apply (slice_last 50). lia. Qed.

Lemma get_object (m : gmap string json) (k : string) :
  get (JObj m) k = Some (prop (JObj m) k).
Proof. reflexivity. Qed.

Local Arguments prop : simpl never.

Lemma export_scenario_typed (s : json) :
  scenario_typed s ->
  exists s', export_scenario s = Some s' /\ exported_scenario s s'.
Proof.
  intros [[m ->] Hms]. unfold export_scenario, exported_scenario.
  rewrite get_object.
  destruct Hms as [Hms | [ms Hms]]; rewrite Hms; simpl.
  - eexists. split; [reflexivity|]. split; [by eexists|]. split.
    + intros k [Hk _]%not_elem_of_cons_ne. by rewrite prop_insert_ne.
    + by rewrite prop_insert_eq.
  - eexists. split; [reflexivity|]. split; [by eexists|]. split.
    + intros k [Hk _]%not_elem_of_cons_ne. by rewrite prop_insert_ne.
    + rewrite prop_insert_eq. by rewrite slice_last_50.
Qed.

Lemma export_character_typed (c : json) :
  character_typed c ->
  exists c', export_character c = Some c' /\ exported_character c c'.
Proof.
  intros [[m ->] Hsc]. unfold export_character, exported_character.
  rewrite !get_object.
  assert (match prop (JObj m) "messages" with
          | Val (JArr xs) => JArr (slice (-50) xs)
          | _ => JArr []
          end = last_50 (prop (JObj m) "messages")) as Hmsgs.
  { destruct (prop (JObj m) "messages") as [|[]]; try done.
    simpl. by rewrite slice_last_50. }
  destruct Hsc as [Hsc | (ss & Hsc & Hss)]; rewrite Hsc; simpl.
  - eexists. split; [reflexivity|]. split; [by eexists|]. split; [|split].
    + intros k [Hk1 [Hk2 _]%not_elem_of_cons_ne]%not_elem_of_cons_ne.
      by prop_inserts.
    + prop_inserts. by rewrite Hmsgs.
    + by prop_inserts.
  - destruct (mapM_related export_scenario scenario_typed exported_scenario ss
                export_scenario_typed Hss) as (ss' & Hmap & Hrel).
    rewrite Hmap. simpl.
    eexists. split; [reflexivity|]. split; [by eexists|]. split; [|split].
    + intros k [Hk1 [Hk2 _]%not_elem_of_cons_ne]%not_elem_of_cons_ne.
      by prop_inserts.
    + prop_inserts. by rewrite Hmsgs.
    + exists ss'. by prop_inserts.
Qed.

(** C8 (export truncation and frame): for characters of the declared types,
    [handleExportBackup] produces a [BackupData] that holds the settings
    object unchanged and, for each input character in order, a character
    whose [messages] are the last 50 of the input's (or [[]] when that field
    is not an array), whose scenarios each carry the last 50 of their
    messages (or [[]]), and whose every other field, as every other field of
    every scenario, is that of the input. *)
Theorem export_truncates_and_keeps (settings : json) (characters : list json)
  (now : Z) :
  Forall character_typed characters ->
  exists b, handleExportBackup settings characters now = Some b
            /\ SettingsApp.settings b = settings
            /\ Forall2 exported_character characters (SettingsApp.characters b)
            /\ version b = JNum 1 /\ type b = "small_phone_backup"
            /\ timestamp b = JNum now.
Proof.
  intros Hcs.
  destruct (mapM_related export_character character_typed exported_character
              characters export_character_typed Hcs) as (cs & Hmap & Hrel).
  unfold handleExportBackup. rewrite Hmap. simpl. by eexists.
Qed.

Lemma export_truncates_and_keeps_witness :
  Forall character_typed [Sample.stored_character; Sample.chatty_character]
  /\ exists b,
       handleExportBackup Sample.app_settings
         [Sample.stored_character; Sample.chatty_character] 7 = Some b
       /\ SettingsApp.settings b = Sample.app_settings
       /\ Forall2 exported_character
            [Sample.stored_character; Sample.chatty_character]
            (SettingsApp.characters b)
       /\ version b = JNum 1 /\ type b = "small_phone_backup"
       /\ timestamp b = JNum 7.
Proof.
  assert (Forall character_typed
            [Sample.stored_character; Sample.chatty_character]) as Htyped.
  { apply Forall_cons. split; [|apply Forall_cons; split; [|apply Forall_nil_2]].
    - split; [by eexists|]. right. eexists. split; [reflexivity|].
      apply Forall_cons. split; [|apply Forall_nil_2].
      split; [by eexists | by left].
    - split; [by eexists | by left]. }
  split; [exact Htyped|].
  exact (export_truncates_and_keeps Sample.app_settings
           [Sample.stored_character; Sample.chatty_character] 7 Htyped).
Defined.

(** *** Round trip *)

Section RoundTrip.

Variable DEFAULT_OFFLINE_PROMPT : string.
Variable JSON_parse : string -> option json.

Local Abbreviation sanitize := (sanitize DEFAULT_OFFLINE_PROMPT).
Local Abbreviation confirmImport := (confirmImport DEFAULT_OFFLINE_PROMPT).
Local Abbreviation DEFAULT_OFFLINE_CONFIG := (DEFAULT_OFFLINE_CONFIG DEFAULT_OFFLINE_PROMPT).

Lemma nullish_or_default (v : value) (d : json) :
  absent_or_boolean v -> nullish_or v d = or_default v d.
Proof. by intros [-> | [b ->]]. Qed.

(** Sanitizing the exported form [c'] of a stored character [c] restores
    [c] up to its message lists and missing fields. *)
Lemma restore_exported (c c' c'' : json) :
  character_stored c ->
  exported_character c c' ->
  sanitize c' = Some c'' ->
  restored_character exported_scenario DEFAULT_OFFLINE_CONFIG c c''.
Proof.
  intros (Htyped & Hmsgs & Hdia & Hmem & Hfc & Hoc & Hlp & Hrt & Hos)
         ([m' ->] & Hsame & Hm & Hsc) [_ ->]%sanitize_Some.
  assert (forall k, k <> "messages" -> k <> "scenarios" ->
                    prop (JObj m') k = prop c k) as Hkeep.
  { intros k Hk1 Hk2. apply Hsame.
    intros [->|[->|[]%elem_of_nil]%elem_of_cons]%elem_of_cons; done. }
  unfold restored_character. split; [by eexists|].
  split; [|prop_inserts; simpl spread;
           rewrite (Hkeep "diaries"), (Hkeep "memories"), (Hkeep "furnaceConfig"),
             (Hkeep "offlineConfig"), (Hkeep "useLocalPersona"),
             (Hkeep "realTimeMode"), (Hkeep "showOS") by done].
  { intros k Hk. unfold sanitized_keys in Hk.
    repeat (apply not_elem_of_cons_ne in Hk as [? Hk]).
    prop_inserts. simpl spread. by apply Hkeep. }
  split.
  { rewrite Hm. by destruct (prop c "messages") as [|[]]. }
  split.
  { destruct Htyped as [_ [Hs | (ss & Hs & _)]]; rewrite Hs in Hsc |- *.
    - rewrite Hsc. exists []. split; [done|]. constructor.
    - destruct Hsc as (ss' & -> & Hrel). by exists ss'. }
  split; [by destruct Hdia as [-> | [xs ->]]|].
  split; [by destruct Hmem as [-> | [xs ->]]|].
  split; [by apply filled_union|].
  split; [by apply filled_union|].
  by rewrite !nullish_or_default.
Qed.

Lemma restore_all (cs cs' : list json) :
  Forall character_stored cs ->
  Forall2 exported_character cs cs' ->
  exists cs'', mapM sanitize cs' = Some cs''
    /\ Forall2 (restored_character exported_scenario DEFAULT_OFFLINE_CONFIG) cs cs''.
Proof.
  intros Hst Hex. induction Hex as [|c c' cs cs' Hc Hex IH].
  - by exists [].
  - apply Forall_cons in Hst as [Hc0 Hst].
    destruct (IH Hst) as (cs'' & Hmap & Hrel).
    destruct (sanitize_not_null DEFAULT_OFFLINE_PROMPT c') as [c'' Hc''].
    { destruct Hc as ([m ->] & _). done. }
    exists (c'' :: cs''). split.
    + apply mapM_Some. constructor; [done|]. by apply mapM_Some.
    + constructor; [by eapply restore_exported|done].
Qed.

Lemma character_stored_typed (c : json) : character_stored c -> character_typed c.
Proof. by intros [? _]. Qed.

(** C6 (backup round trip), with what export does to scenarios: for every
    settings object and every list of stored characters, exporting a backup
    succeeds, and selecting a file with the exported content and confirming
    the import, in whatever state the importing application is, restores
    the same settings and, in order, the same characters except that each
    character's message list is cut to its last 50 elements, the [messages]
    of every scenario, connected or isolated, are the last 50 of its
    messages or [[]] when it has none, and the missing per-character fields
    are filled with the defaults of sanitization. *)
Theorem backup_round_trip (st : State) (now : Z) :
  is_object (app_settings st) ->
  Forall character_stored (app_characters st) ->
  exists b,
    handleExportBackup (app_settings st) (app_characters st) now = Some b
    /\ forall (text : string) (st0 : State) (now' : Z),
         text <> "" ->
         JSON_parse text = Some (BackupData_json b) ->
         let staged := handleImportFileSelect JSON_parse st0 (Loaded text) now' in
         is_Some (pendingImport staged)
         /\ app_settings (confirmImport staged) = app_settings st
         /\ Forall2 (restored_character exported_scenario DEFAULT_OFFLINE_CONFIG)
              (app_characters st) (app_characters (confirmImport staged)).
Proof.
  intros [ms Hset] Hst.
  destruct (mapM_related export_character character_typed exported_character
              (app_characters st) export_character_typed)
    as (cs' & Hexp & Hrel).
  { eapply Forall_impl; [done|]. apply character_stored_typed. }
  set (b := {| version := JNum 1; type := "small_phone_backup";
               timestamp := JNum now; settings := app_settings st;
               characters := cs' |}).
  exists b. split; [unfold handleExportBackup; by rewrite Hexp|].
  intros text st0 now' Hne Hparse staged.
  destruct (restore_all _ _ Hst Hrel) as (cs'' & Hmap & Hres).
  assert (parse_backup JSON_parse (app_settings st0) text now' =
            inr {| version := JNum 1; type := "small_phone_backup";
                   timestamp := or_else (Val (timestamp b)) (JNum now');
                   settings := app_settings st;
                   characters := characters b |}) as Hpb.
  { unfold parse_backup. apply truthy_string_spec in Hne. rewrite Hne, Hparse.
    unfold BackupData_json. prop_inserts. subst b. simpl. rewrite Hset.
    reflexivity. }
  subst staged. unfold handleImportFileSelect. rewrite Hpb.
  split; [by eexists|].
  unfold SettingsApp.confirmImport. simpl. rewrite Hmap, Hset. simpl. done.
Qed.

End RoundTrip.

Lemma backup_round_trip_witness :
  let st := Sample.state [Sample.stored_character; Sample.chatty_character] in
  let staged := handleImportFileSelect (Sample.exported_file st 7)
                  (Sample.state []) (Loaded "backup") 9 in
  is_object (app_settings st)
  /\ Forall character_stored (app_characters st)
  /\ app_settings (confirmImport Sample.offline_prompt staged) = app_settings st
  /\ Forall2 (restored_character exported_scenario
               (DEFAULT_OFFLINE_CONFIG Sample.offline_prompt))
       (app_characters st)
       (app_characters (confirmImport Sample.offline_prompt staged)).
Proof.
  intros st staged.
  assert (is_object (app_settings st)) as Hobj by (by eexists).
  assert (Forall character_stored (app_characters st)) as Hst.
  { apply Forall_cons. split; [|apply Forall_cons; split; [|apply Forall_nil_2]].
    - split.
      { split; [by eexists|]. right. eexists. split; [reflexivity|].
        apply Forall_cons. split; [|apply Forall_nil_2].
        split; [by eexists | by left]. }
      repeat split; by left.
    - split; [split; [by eexists | by left]|].
      split; [right; by eexists|]. repeat split; by left. }
  split; [exact Hobj|]. split; [exact Hst|].
  destruct (backup_round_trip Sample.offline_prompt (Sample.exported_file st 7)
              st 7 Hobj Hst) as (b & Hexp & Hround).
  destruct (Hround "backup" (Sample.state []) 9) as (_ & Hs & Hcs).
  - done.
  - unfold Sample.exported_file. by rewrite Hexp.
  - split; [exact Hs | exact Hcs].
Defined.

(** C6 as the specification words it fails on a character with a connected
    scenario that has no messages of its own: after export, import and
    confirmation the scenario has the field [messages], holding [[]], so it
    is not the same scenario. *)
Lemma connected_scenario_gains_messages :
  let st := Sample.state [Sample.stored_character] in
  let staged := handleImportFileSelect (Sample.exported_file st 7)
                  (Sample.state []) (Loaded "backup") 9 in
  let restored := app_characters (confirmImport Sample.offline_prompt staged) in
  (exists c' s', restored = [c']
                 /\ prop c' "scenarios" = Val (JArr [s'])
                 /\ prop s' "messages" = Val (JArr [])
                 /\ prop Sample.connected_scenario "messages" = undefined)
  /\ ~ Forall2 (restored_character restored_scenario_stated
                 (DEFAULT_OFFLINE_CONFIG Sample.offline_prompt))
         (app_characters st) restored.
Proof.
  intros st staged restored. split.
  - eexists _, _. split; [reflexivity|]. split; [reflexivity|]. split; reflexivity.
  - intros H. remember restored as r eqn:Hr. vm_compute in Hr. subst r.
    inversion H as [|c c' cs cs' Hc Hnil]; subst. clear H Hnil.
    destruct Hc as (_ & _ & _ & (ss' & Hss & Hrel) & _).
    vm_compute in Hss. injection Hss as <-.
    inversion Hrel as [|s s' ss ss' Hs Hnil]; subst. clear Hrel Hnil.
    unfold restored_scenario_stated in Hs.
    change (prop Sample.connected_scenario "isConnected") with (Val (JBool true)) in Hs.
    apply (f_equal (fun j => prop j "messages")) in Hs.
    vm_compute in Hs. discriminate.
Qed.

(** * Further properties of the chat *)

(** ** Blank input *)

Lemma trimStart_empty (s : string) :
  trimStart s = "" <-> Forall (fun a => isWhiteSpace a = true) (chars s).
Proof.
  induction s as [|a s IH]; simpl.
  - split; [constructor|done].
  - destruct (isWhiteSpace a) eqn:Ha.
    + rewrite IH. split; [by constructor|]. by intros [_ ?]%Forall_cons.
    + split; [done|]. intros [Ha' _]%Forall_cons. congruence.
Qed.

Lemma trimStart_head (s : string) :
  trimStart s = "" \/ exists a t, trimStart s = String a t /\ isWhiteSpace a = false.
Proof.
  induction s as [|a s IH]; simpl; [by left|].
  destruct (isWhiteSpace a) eqn:Ha; [done|]. right. by exists a, s.
Qed.

Lemma trimEnd_empty (s : string) :
  trimEnd s = "" -> Forall (fun a => isWhiteSpace a = true) (chars s).
Proof.
  induction s as [|a s IH]; simpl; [constructor|].
  destruct (trimEnd s); [|done].
  destruct (isWhiteSpace a) eqn:Ha; [|done].
  intros _. constructor; [done|]. by apply IH.
Qed.

Lemma trim_empty (s : string) :
  trim s = "" <-> Forall (fun a => isWhiteSpace a = true) (chars s).
Proof.
  unfold trim. split.
  - intros Ht. apply trimStart_empty.
    destruct (trimStart_head s) as [?|(a & t & Hs & Ha)]; [done|].
    rewrite Hs in Ht. apply trimEnd_empty in Ht.
    apply Forall_cons in Ht as [Ha' _]. congruence.
  - intros Hs. apply trimStart_empty in Hs. by rewrite Hs.
Qed.

Lemma isWhiteSpace_ascii (a : ascii) :
  (nat_of_ascii a < 128)%nat ->
  isWhiteSpace a = true <-> nat_of_ascii a ∈ [9; 10; 11; 12; 13; 32]%nat.
Proof.
  intros Ha. unfold isWhiteSpace. rewrite bool_decide_eq_true.
  rewrite !elem_of_cons, !elem_of_nil. lia.
Qed.

Lemma Forall_ascii_whitespace (l : list ascii) :
  Forall (fun a => (nat_of_ascii a < 128)%nat) l ->
  Forall (fun a => isWhiteSpace a = true) l
  <-> Forall (fun a => nat_of_ascii a ∈ [9; 10; 11; 12; 13; 32]%nat) l.
Proof.
  induction 1 as [|a l Ha Hl IH]; [by split; constructor|].
  rewrite !Forall_cons, IH. by rewrite isWhiteSpace_ascii.
Qed.

Section MoreSending.

Variable interpolatePrompt : string -> PromptVars -> string.

Local Abbreviation handleSendMessage := (handleSendMessage interpolatePrompt).
Local Abbreviation messagesPayload := (messagesPayload interpolatePrompt).
Local Abbreviation systemPrompt := (systemPrompt interpolatePrompt).
Local Abbreviation step := (step interpolatePrompt).
Local Abbreviation reachable := (reachable interpolatePrompt).

(** X1: for an input made of ASCII characters, [handleSendMessage] has no
    effect at all exactly when every character of the input is TAB, LF, VT,
    FF, CR or a space (the empty input included) or a generation is in
    progress. *)
Theorem send_ignored_iff (p : Props) now_id now_ts :
  Forall (fun a => (nat_of_ascii a < 128)%nat) (chars (inputText p)) ->
  handleSendMessage p now_id now_ts = ([], None)
  <-> Forall (fun a => nat_of_ascii a ∈ [9; 10; 11; 12; 13; 32]%nat)
        (chars (inputText p))
      \/ isGlobalGenerating p = true.
Proof.
  intros Hascii.
  rewrite <- (Forall_ascii_whitespace _ Hascii), <- trim_empty. split.
  - intros Hnone.
    destruct (decide (trim (inputText p) = "")) as [?|Hin]; [by left|].
    destruct (isGlobalGenerating p) eqn:Hgen; [by right|].
    rewrite send_accepted in Hnone by done. done.
  - intros Hor. apply send_refused. intros [Hin Hgen].
    destruct Hor; congruence.
Qed.

(** X2: when the request of a send fails, the user message stays appended
    to the history without a reply, the input stays cleared, the flag is
    cleared and the request is gone. *)
Theorem failed_turn_keeps_user_message w i c now_id now_ts n_id n_ts :
  w_characters w !! i = Some c ->
  accepted (props_in w c) ->
  let w2 := step (step w (Send i now_id now_ts))
              (Settle (length (w_requests w)) Rejected n_id n_ts) in
  w_characters w2 =
    addMessage (Character.id c) (userMsg (props_in w c) now_id now_ts) (w_characters w)
  /\ w_generating w2 = false
  /\ w_inputText w2 = ""
  /\ w_requests w2 = w_requests w.
Proof.
  intros Hc Hacc w2. subst w2.
  rewrite (step_send_accepted _ _ _ _ _ _ Hc Hacc).
  unfold ChatInterface.step. simpl.
  rewrite list_lookup_middle by done. simpl.
  split; [done|]. split; [done|]. split; [done|].
  by rewrite delete_middle, app_nil_r.
Qed.

(** X3: with a history size of at least one, the request carries the system
    prompt, the new message and as many stored messages as the history size
    allows: never more than [historyCount + 2] elements. *)
Theorem payload_length (c : Character.t) (u : Message.t) :
  1 <= Character.historyCount c ->
  Z.of_nat (length (messagesPayload c u)) =
    2 + Z.min (Character.historyCount c) (Z.of_nat (length (Character.messages c)))
  /\ Z.of_nat (length (messagesPayload c u)) <= Character.historyCount c + 2.
Proof.
  intros Hn. unfold ChatInterface.messagesPayload, conversation, history.
  cbn [length]. rewrite length_app, length_fmap. cbn [length].
  unfold slice. case_decide; [|lia]. rewrite length_drop. lia.
Qed.

(** X4: whatever the history size, the request holds the system prompt,
    then the contents of a run of stored messages that ends with the last
    one, in their order, then the input as typed; and every role in it is
    [system], [user] or [assistant], never [model]. *)
Theorem payload_shape (c : Character.t) (u : Message.t) :
  exists earlier window,
    Character.messages c = earlier ++ window
    /\ chat_content <$> messagesPayload c u =
         systemPrompt c :: (Message.content <$> window) ++ [Message.content u]
    /\ Forall (fun m => chat_role m ∈ ["system"; "user"; "assistant"])
         (messagesPayload c u).
Proof.
  exists (take (length (Character.messages c)
                - length (slice (- Character.historyCount c) (Character.messages c)))
            (Character.messages c)),
         (slice (- Character.historyCount c) (Character.messages c)).
  split.
  { unfold slice. rewrite length_drop.
    set (k := Z.to_nat _).
    replace (length (Character.messages c) - (length (Character.messages c) - k))%nat
      with (Nat.min k (length (Character.messages c))) by lia.
    rewrite <- (take_drop k (Character.messages c)) at 1.
    f_equal. destruct (decide (k <= length (Character.messages c))%nat).
    - by rewrite Nat.min_l.
    - rewrite Nat.min_r by lia. rewrite !take_ge by lia. done. }
  unfold ChatInterface.messagesPayload, conversation, history. split.
  - cbn [fmap list_fmap]. f_equal. rewrite fmap_app. cbn. f_equal.
    rewrite <- list_fmap_compose. by apply list_fmap_ext.
  - constructor; [set_solver|]. apply Forall_app. split.
    + apply Forall_fmap, Forall_forall. intros m _. simpl.
      destruct (Message.role m); set_solver.
    + constructor; [set_solver|constructor].
Qed.

(** The flag is set exactly while a request is in flight. *)
Lemma flag_tracks_request_step w ev :
  (w_generating w = true <-> w_requests w <> []) ->
  (length (w_requests w) <= 1)%nat ->
  (w_generating (step w ev) = true <-> w_requests (step w ev) <> []).
Proof.
  intros Hflag Hlen. destruct ev as [s|i now_id now_ts|i o now_id now_ts].
  - done.
  - unfold ChatInterface.step. destruct (w_characters w !! i) as [c|]; [|done].
    unfold ChatInterface.handleSendMessage. simpl.
    destruct (negb _ || w_generating w) eqn:Hguard; [done|]. simpl.
    split; [intros _|done]. by destruct (w_requests w).
  - unfold ChatInterface.step. destruct (w_requests w !! i) as [k|] eqn:Hk; [|done].
    destruct (w_requests w) as [|k' [|k'' rs]]; simpl in *; [done| |lia].
    destruct i; [|done]. simpl. by destruct o.
Qed.

Lemma flag_tracks_request w :
  reachable w -> (w_generating w = true <-> w_requests w <> []).
Proof.
  intros (w0 & evs & [Hgen Hreq] & ->).
  assert ((w_generating w0 = true <-> w_requests w0 <> []) /\ one_in_flight w0)
    as Hinv.
  { unfold one_in_flight. rewrite Hgen, Hreq. simpl.
    split; [by split|]. split; [lia|done]. }
  clear Hgen Hreq. revert w0 Hinv.
  induction evs as [|ev evs IH]; intros w0 [Hflag Hone]; [done|].
  simpl. apply IH. split.
  - apply flag_tracks_request_step; [done|]. by destruct Hone.
  - by apply one_in_flight_step.
Qed.

(** X5: in every world reachable from a start without a generation in
    progress, the flag is set exactly when one request is in flight: it is
    never left set once the request has settled, and never clear while one
    is pending. *)
Theorem generating_iff_request w :
  reachable w -> (w_generating w = true <-> length (w_requests w) = 1%nat).
Proof.
  intros Hw. rewrite (flag_tracks_request w Hw).
  destruct (one_in_flight_reachable interpolatePrompt w Hw) as [Hlen _].
  destruct (w_requests w) as [|k [|k' rs]]; simpl in *; [done|done|lia].
Qed.

End MoreSending.

(** X6: the reply of a turn never has the id of its user message, the clock
    not running backwards between the two. *)
Theorem reply_id_differs (p : Props) now_id now_ts r n_id n_ts :
  now_id <= n_id ->
  Message.id (aiMsg (userMsg p now_id now_ts) r n_id n_ts)
    <> Message.id (userMsg p now_id now_ts).
Proof.
  intros Hclock. simpl. unfold toString. intros Heq.
  apply (inj pretty) in Heq. lia.
Qed.

(** * Properties of the settings panel of a chat *)

Lemma edited_self (c : Character.t) :
  c = ChatSettings.edited (Character.remark c)
        (OfflineConfig.style (Character.offlineConfig c))
        (OfflineConfig.wordCount (Character.offlineConfig c))
        (OfflineConfig.bgUrl (Character.offlineConfig c)) c.
Proof. destruct c as [? ? ? ? ? ? ? ? ? ? ? ? ? ? ? ? ? ? [] ? ? ? ? ? ?]. reflexivity. Qed.

Lemma panel_step_edited (p : ChatSettings.Panel) (ev : ChatSettings.Event) :
  (exists r s w b,
     ChatSettings.tempCharConfig p = ChatSettings.edited r s w b (ChatSettings.character p)) ->
  exists r s w b,
    ChatSettings.tempCharConfig (fst (ChatSettings.step p ev)) =
      ChatSettings.edited r s w b (ChatSettings.character (fst (ChatSettings.step p ev))).
Proof.
  intros (r & s & w & b & Ht).
  destruct ev as [c| | |v|v|v|v|]; simpl.
  - eexists _, _, _, _. apply edited_self.
  - by exists r, s, w, b.
  - by exists r, s, w, b.
  - destruct (ChatSettings.showSettings p); simpl; [|by exists r, s, w, b].
    exists v, s, w, b. by rewrite Ht.
  - destruct (ChatSettings.showSettings p); simpl; [|by exists r, s, w, b].
    exists r, v, w, b. by rewrite Ht.
  - destruct (ChatSettings.showSettings p); simpl; [|by exists r, s, w, b].
    exists r, s, (ChatSettings.wordCount_of_input v), b. by rewrite Ht.
  - destruct (ChatSettings.showSettings p); simpl; [|by exists r, s, w, b].
    exists r, s, w, (Some v). by rewrite Ht.
  - destruct (ChatSettings.showSettings p); simpl; by exists r, s, w, b.
Qed.

Lemma panel_run_edited (p : ChatSettings.Panel) (evs : list ChatSettings.Event) :
  (exists r s w b,
     ChatSettings.tempCharConfig p = ChatSettings.edited r s w b (ChatSettings.character p)) ->
  exists r s w b,
    ChatSettings.tempCharConfig (ChatSettings.run p evs) =
      ChatSettings.edited r s w b (ChatSettings.character (ChatSettings.run p evs)).
Proof.
  revert p. induction evs as [|ev evs IH]; intros p Hp; [done|].
  apply IH. by apply panel_step_edited.
Qed.

(** X7: whatever happens to a chat after it is mounted, the character that
    the save button hands to [onUpdateCharacter] is the current [character]
    prop with at most its [remark] and the [style], [wordCount] and [bgUrl]
    of its [offlineConfig] changed; in particular saving the panel never
    changes the id, the messages, the memories, the history size or the
    prompts of the character. *)
Theorem panel_saves_only_its_fields (c0 : Character.t) (evs : list ChatSettings.Event) :
  let p := ChatSettings.run (ChatSettings.mount c0) evs in
  forall t, ChatSettings.onUpdateCharacter t ∈ snd (ChatSettings.step p ChatSettings.SaveSettings) ->
    (exists r s w b, t = ChatSettings.edited r s w b (ChatSettings.character p))
    /\ Character.id t = Character.id (ChatSettings.character p)
    /\ Character.messages t = Character.messages (ChatSettings.character p)
    /\ Character.memories t = Character.memories (ChatSettings.character p)
    /\ Character.historyCount t = Character.historyCount (ChatSettings.character p)
    /\ Character.systemPrompt t = Character.systemPrompt (ChatSettings.character p)
    /\ OfflineConfig.systemPrompt (Character.offlineConfig t) =
         OfflineConfig.systemPrompt (Character.offlineConfig (ChatSettings.character p)).
Proof.
  intros p t Ht.
  destruct (panel_run_edited (ChatSettings.mount c0) evs) as (r & s & w & b & Hp).
  { eexists _, _, _, _. apply edited_self. }
  fold p in Hp. simpl in Ht.
  destruct (ChatSettings.showSettings p); simpl in Ht.
  - apply list_elem_of_singleton in Ht as [= ->]. rewrite Hp.
    split; [by exists r, s, w, b|]. done.
  - by apply elem_of_nil in Ht.
Qed.

(** ** The word count typed into the panel *)

Lemma digit_of_pretty (d : N) :
  (d < 10)%N -> ChatSettings.digit_of (pretty_N_char d) = Some d.
Proof.
  intros Hd.
  assert (d = 0 \/ d = 1 \/ d = 2 \/ d = 3 \/ d = 4 \/ d = 5 \/ d = 6 \/ d = 7
          \/ d = 8 \/ d = 9)%N as Hcases by lia.
  repeat (destruct Hcases as [-> | Hcases]; [reflexivity|]). by subst.
Qed.

(** Reading the decimal digits of [x] continues the value read so far. *)
Lemma parse_digits_pretty (x : N) :
  (0 < x)%N ->
  exists k, forall s acc,
    ChatSettings.parse_digits 10 (pretty_N_go x s) acc =
      ChatSettings.parse_digits 10 s (Some (k * default 0 acc + x))%N.
Proof.
  induction (N.lt_wf_0 x) as [x _ IH]. intros Hx.
  assert (x `mod` 10 < 10)%N as Hmod by (apply N.mod_lt; lia).
  destruct (N.eq_0_gt_0_cases (x `div` 10)) as [Hdiv | Hdiv].
  - exists 10%N. intros s acc. rewrite pretty_N_go_step by done.
    rewrite Hdiv, pretty_N_go_0. simpl.
    rewrite digit_of_pretty by done. rewrite bool_decide_eq_true_2 by done.
    do 2 f_equal. pose proof (N.div_mod x 10). lia.
  - destruct (IH (x `div` 10)%N) as [k Hk]; [by apply N.div_lt | done |].
    exists (10 * k)%N. intros s acc. rewrite pretty_N_go_step by done.
    rewrite Hk. simpl.
    rewrite digit_of_pretty by done. rewrite bool_decide_eq_true_2 by done.
    do 2 f_equal. pose proof (N.div_mod x 10). lia.
Qed.

(** The numeral of a positive number starts with a digit from 1 to 9. *)
Lemma pretty_N_go_head (x : N) (s : string) :
  (0 < x)%N ->
  exists d t, (0 < d < 10)%N /\ pretty_N_go x s = String (pretty_N_char d) t.
Proof.
  revert s. induction (N.lt_wf_0 x) as [x _ IH]. intros s Hx.
  rewrite pretty_N_go_step by done.
  destruct (N.eq_0_gt_0_cases (x `div` 10)) as [Hdiv | Hdiv].
  - rewrite Hdiv, pretty_N_go_0. exists (x `mod` 10)%N, s. split; [|done].
    pose proof (N.div_mod x 10). pose proof (N.mod_lt x 10). lia.
  - apply IH; [by apply N.div_lt | done].
Qed.

Lemma parseInt_pretty_pos (p : positive) :
  ChatSettings.parseInt (pretty (Z.pos p)) = Some (round_double (Z.pos p))
  /\ ChatSettings.parseInt (pretty (Z.neg p)) = Some (round_double (Z.neg p)).
Proof.
  assert (0 < N.pos p)%N as Hp by lia.
  destruct (pretty_N_go_head (N.pos p) "" Hp) as (d & t & Hd & Hhead).
  destruct (parse_digits_pretty (N.pos p) Hp) as [k Hk].
  specialize (Hk "" None). rewrite Hhead in Hk. simpl in Hk.
  assert (pretty (Z.pos p) = String (pretty_N_char d) t) as Hpos.
  { unfold pretty, pretty_Z, pretty, pretty_positive, pretty, pretty_N.
    by rewrite decide_False. }
  assert (pretty (Z.neg p) = String "-" (String (pretty_N_char d) t)) as Hneg.
  { unfold pretty at 1, pretty_Z. fold (pretty (Z.pos p)). by rewrite <- Hpos. }
  rewrite Hpos, Hneg. clear Hpos Hneg Hhead.
  assert (d = 1 \/ d = 2 \/ d = 3 \/ d = 4 \/ d = 5 \/ d = 6 \/ d = 7
          \/ d = 8 \/ d = 9)%N as Hcases by lia.
  unfold ChatSettings.parseInt.
  repeat (destruct Hcases as [-> | Hcases];
          [simpl in *; rewrite Hk; split; do 2 f_equal; lia|]).
  subst. simpl in *. rewrite Hk. split; do 2 f_equal; lia.
Qed.

Lemma round_double_safe (n : Z) :
  Z.abs n <= 9007199254740991 -> round_double n = n.
Proof. intros Hn. unfold round_double. by rewrite bool_decide_eq_true_2 by lia. Qed.

(** X8: typing the decimal numeral of a safe integer other than zero into
    the input of the panel gives that integer as the word count, and typing
    [0] gives 150; the word count taken from an input of at most 256 ASCII
    characters, for which the number read is finite, is never zero. *)
Theorem wordCount_input_round_trip (n : Z) :
  Z.abs n <= 9007199254740991 ->
  ChatSettings.wordCount_of_input (toString n) = (if decide (n = 0) then 150 else n)
  /\ forall v,
       Forall (fun a => (nat_of_ascii a < 128)%nat) (chars v) ->
       (String.length v <= 256)%nat ->
       ChatSettings.wordCount_of_input v <> 0.
Proof.
  intros Hsafe. split.
  - unfold ChatSettings.wordCount_of_input, toString.
    destruct n as [|p|p].
    + reflexivity.
    + destruct (parseInt_pretty_pos p) as [-> _].
      rewrite round_double_safe by done. by rewrite !decide_False.
    + destruct (parseInt_pretty_pos p) as [_ ->].
      rewrite round_double_safe by done. by rewrite !decide_False.
  - intros v _ _. unfold ChatSettings.wordCount_of_input.
    destruct (ChatSettings.parseInt v) as [m|]; [|done].
    by destruct (decide (m = 0)).
Qed.

Lemma wordCount_input_round_trip_witness :
  Z.abs 200 <= 9007199254740991
  /\ ChatSettings.wordCount_of_input "200" = 200
  /\ ChatSettings.wordCount_of_input "0x0" <> 0.
Proof.
  assert (Z.abs 200 <= 9007199254740991) as Hsafe by lia.
  split; [exact Hsafe|].
  destruct (wordCount_input_round_trip 200 Hsafe) as [Hround Hnz].
  split; [exact Hround|]. apply Hnz.
  - repeat constructor.
  - simpl. lia.
Defined.

(** Beyond the safe integers the number read is the nearest Number, not the
    numeral's value. *)
Example parseInt_rounds :
  ChatSettings.parseInt "9007199254740993" = Some 9007199254740992.
Proof. reflexivity. Qed.

(** * Further properties of backups *)

Ltac lookup_inserts :=
  repeat first [ rewrite lookup_insert_eq | rewrite lookup_insert_ne by done
               | rewrite lookup_delete_eq | rewrite lookup_delete_ne by done ].

Lemma nullish_or_not_null (v : value) : nullish_or v (JBool false) <> JNull.
Proof. by destruct v as [|[]]. Qed.

Lemma nullish_or_keeps (j : json) (d : json) : j <> JNull -> nullish_or (Val j) d = j.
Proof. by destruct j. Qed.

Section MoreConfirming.

Variable DEFAULT_OFFLINE_PROMPT : string.

Local Abbreviation sanitize := (sanitize DEFAULT_OFFLINE_PROMPT).
Local Abbreviation confirmImport := (confirmImport DEFAULT_OFFLINE_PROMPT).
Local Abbreviation DEFAULT_OFFLINE_CONFIG := (DEFAULT_OFFLINE_CONFIG DEFAULT_OFFLINE_PROMPT).

(** A character in sanitized form is left as it is by sanitization. *)
Lemma sanitize_fixed (m a b : gmap string json) (sc di me ms : list json)
  (lp rt os : json) :
  lp <> JNull -> rt <> JNull -> os <> JNull ->
  sanitize
    (JObj (<["furnaceConfig" := JObj (a ∪ DEFAULT_FURNACE_CONFIG)]>
          (<["offlineConfig" := JObj (b ∪ DEFAULT_OFFLINE_CONFIG)]>
          (<["scenarios" := JArr sc]>
          (<["diaries" := JArr di]>
          (<["memories" := JArr me]>
          (<["messages" := JArr ms]>
          (<["useLocalPersona" := lp]>
          (<["realTimeMode" := rt]>
          (<["showOS" := os]> m))))))))))
  = Some
    (JObj (<["furnaceConfig" := JObj (a ∪ DEFAULT_FURNACE_CONFIG)]>
          (<["offlineConfig" := JObj (b ∪ DEFAULT_OFFLINE_CONFIG)]>
          (<["scenarios" := JArr sc]>
          (<["diaries" := JArr di]>
          (<["memories" := JArr me]>
          (<["messages" := JArr ms]>
          (<["useLocalPersona" := lp]>
          (<["realTimeMode" := rt]>
          (<["showOS" := os]> m)))))))))).
Proof.
  intros Hlp Hrt Hos. unfold SettingsApp.sanitize. rewrite get_object.
  cbn [mbind option_bind]. prop_inserts.
  cbn [or_else truthy spread]. rewrite !nullish_or_keeps by done.
  rewrite <- !(assoc_L (∪)), !(idemp_L (∪)).
  do 2 f_equal.
  rewrite (insert_id _ "showOS") by (by lookup_inserts).
  rewrite (insert_id _ "realTimeMode") by (by lookup_inserts).
  rewrite (insert_id _ "useLocalPersona") by (by lookup_inserts).
  rewrite (insert_id _ "messages") by (by lookup_inserts).
  rewrite (insert_id _ "memories") by (by lookup_inserts).
  rewrite (insert_id _ "diaries") by (by lookup_inserts).
  rewrite (insert_id _ "scenarios") by (by lookup_inserts).
  rewrite (insert_id _ "offlineConfig") by (by lookup_inserts).
  by rewrite insert_insert_eq.
Qed.

(** X9: sanitization is idempotent: a character that [confirmImport] has
    sanitized is left unchanged when it is sanitized again, as happens when
    a backup of imported data is imported. *)
Theorem sanitize_idempotent (c c' : json) :
  sanitize c = Some c' -> sanitize c' = Some c'.
Proof.
  intros [_ ->]%sanitize_Some.
  destruct (array_or_empty_is_array (prop c "scenarios")) as [sc [= ->]].
  destruct (array_or_empty_is_array (prop c "diaries")) as [di [= ->]].
  destruct (array_or_empty_is_array (prop c "memories")) as [me [= ->]].
  destruct (array_or_empty_is_array (prop c "messages")) as [ms [= ->]].
  apply sanitize_fixed; apply nullish_or_not_null.
Qed.

End MoreConfirming.

(** ** Exporting *)

Lemma slice_50_length {A} (l : list A) : (length (slice (-50) l) <= 50)%nat.
Proof. rewrite slice_last_50, last_n_length. lia. Qed.

Lemma slice_50_short {A} (l : list A) :
  (length l <= 50)%nat -> slice (-50) l = l.
Proof.
  intros Hl. rewrite slice_last_50. unfold last_n.
  replace (length l - Z.to_nat 50)%nat with 0%nat by lia. done.
Qed.

Lemma slice_50_idempotent {A} (l : list A) :
  slice (-50) (slice (-50) l) = slice (-50) l.
Proof. apply slice_50_short, slice_50_length. Qed.

Lemma last_50_short (v : value) :
  exists xs, last_50 v = JArr xs /\ (length xs <= 50)%nat.
Proof.
  destruct v as [|[]]; simpl; try (exists []; split; [done|simpl; lia]).
  eexists. split; [done|]. rewrite last_n_length. lia.
Qed.

(** X10: a backup built from characters of the declared types holds at most
    50 messages for each character and at most 50 for each of its
    scenarios. *)
Theorem export_at_most_50 (settings : json) (characters : list json) (now : Z)
  (b : BackupData) :
  Forall character_typed characters ->
  handleExportBackup settings characters now = Some b ->
  Forall (fun c' =>
            (exists ms, prop c' "messages" = Val (JArr ms) /\ (length ms <= 50)%nat)
            /\ forall ss', prop c' "scenarios" = Val (JArr ss') ->
                 Forall (fun s' => exists ms, prop s' "messages" = Val (JArr ms)
                                              /\ (length ms <= 50)%nat) ss')
         (SettingsApp.characters b).
Proof.
  intros Htyped Hexp.
  destruct (mapM_related export_character character_typed exported_character
              characters export_character_typed Htyped) as (cs & Hmap & Hrel).
  unfold handleExportBackup in Hexp. rewrite Hmap in Hexp.
  injection Hexp as <-. simpl.
  eapply Forall2_Forall_r; [done|]. apply Forall_forall.
  intros c _ c' (_ & _ & Hm & Hsc). split.
  - destruct (last_50_short (prop c "messages")) as (ms & Hms & Hlen).
    exists ms. by rewrite Hm, Hms.
  - intros ss' Hss'. destruct (prop c "scenarios") as [|[]]; try congruence.
    destruct Hsc as (ss'' & Heq & Hall). rewrite Heq in Hss'.
    injection Hss' as <-. eapply Forall2_Forall_r; [done|]. apply Forall_forall.
    intros s _ s' (_ & _ & Hsm).
    destruct (last_50_short (prop s "messages")) as (ms & Hms & Hlen).
    exists ms. by rewrite Hsm, Hms.
Qed.

Lemma export_scenario_fixed (s s' : json) :
  scenario_typed s -> export_scenario s = Some s' -> export_scenario s' = Some s'.
Proof.
  intros [[m ->] Hms]. unfold export_scenario. rewrite !get_object.
  destruct Hms as [Hms | [ms Hms]]; rewrite Hms;
    cbn [truthy mbind option_bind slice_method spread]; intros [= <-];
    rewrite get_object, prop_insert_eq;
    cbn [truthy mbind option_bind slice_method spread].
  - by rewrite insert_insert_eq.
  - by rewrite slice_50_idempotent, insert_insert_eq.
Qed.

Lemma export_scenarios_fixed (ss ss' : list json) :
  Forall scenario_typed ss ->
  mapM export_scenario ss = Some ss' -> mapM export_scenario ss' = Some ss'.
Proof.
  intros Hty Hmap. apply mapM_Some in Hmap. apply mapM_Some.
  induction Hmap as [|s s' ss ss' Hs Hmap IH]; [constructor|].
  apply Forall_cons in Hty as [Hs0 Hty].
  constructor; [by eapply export_scenario_fixed|by apply IH].
Qed.

(** X11: exporting is idempotent on characters of the declared types: the
    exported form of a character is exported as it is. *)
Theorem export_character_idempotent (c c' : json) :
  character_typed c -> export_character c = Some c' -> export_character c' = Some c'.
Proof.
  intros [[m ->] Hsc]. unfold export_character. rewrite !get_object.
  assert (forall v : value,
            match Val (match v with
                       | Val (JArr xs) => JArr (slice (-50) xs)
                       | _ => JArr []
                       end) with
            | Val (JArr xs) => JArr (slice (-50) xs)
            | _ => JArr []
            end = match v with
                  | Val (JArr xs) => JArr (slice (-50) xs)
                  | _ => JArr []
                  end) as Hidem.
  { intros [|[]]; try done. simpl. by rewrite slice_50_idempotent. }
  destruct Hsc as [Hsc | (ss & Hsc & Hss)]; rewrite Hsc;
    cbn [mbind option_bind fmap option_fmap option_map set_prop spread].
  - intros [= <-]. rewrite !get_object. prop_inserts.
    cbn [mbind option_bind fmap option_fmap option_map set_prop spread].
    rewrite Hidem. do 2 f_equal.
    rewrite <- (delete_insert_ne _ "scenarios" "messages") by done.
    by rewrite insert_insert_eq, delete_delete_eq.
  - destruct (mapM export_scenario ss) as [ss'|] eqn:Hmap; [|done].
    cbn [mbind option_bind fmap option_fmap option_map set_prop spread].
    intros [= <-]. rewrite !get_object. prop_inserts.
    cbn [mbind option_bind fmap option_fmap option_map set_prop spread].
    rewrite (export_scenarios_fixed ss ss') by done.
    cbn [mbind option_bind fmap option_fmap option_map set_prop spread].
    rewrite Hidem. do 2 f_equal.
    rewrite (insert_insert_ne _ "messages" "scenarios") by done.
    by rewrite !insert_insert_eq.
Qed.

(** ** Importing *)

Section MoreImporting.

Variable DEFAULT_OFFLINE_PROMPT : string.
Variable JSON_parse : string -> option json.

Local Abbreviation sanitize := (sanitize DEFAULT_OFFLINE_PROMPT).
Local Abbreviation confirmImport := (confirmImport DEFAULT_OFFLINE_PROMPT).
Local Abbreviation handleImportFileSelect := (handleImportFileSelect JSON_parse).

Lemma or_else_truthy (v : value) (d : json) :
  truthy v = true -> Val (or_else v d) = v.
Proof. intros Hv. unfold or_else. rewrite Hv. by destruct v. Qed.

Lemma sanitize_null_fails (cs : list json) :
  JNull ∈ cs -> mapM sanitize cs = None.
Proof. intros Hnull. apply mapM_None, Exists_exists. by exists JNull. Qed.

(** X12: confirming an import is not all or nothing.  When the staged
    backup has a [null] among its characters, the settings of the backup
    have already replaced the application's when sanitization throws: the
    characters stay as they were, the failure is reported and the backup
    stays staged. *)
Theorem confirm_fails_after_settings (st : State) (pending : BackupData) :
  pendingImport st = Some pending ->
  truthy (Val (settings pending)) = true ->
  JNull ∈ characters pending ->
  app_settings (confirmImport st) = settings pending
  /\ localSettings (confirmImport st) = settings pending
  /\ app_characters (confirmImport st) = app_characters st
  /\ importMsg (confirmImport st) = msg_apply_failed
  /\ pendingImport (confirmImport st) = Some pending.
Proof.
  intros Hp Hs Hnull. unfold SettingsApp.confirmImport.
  rewrite Hp, Hs, (sanitize_null_fails _ Hnull). done.
Qed.

(** X13: a file with settings but no array of characters stages an empty
    character list, so confirming it replaces the settings and removes
    every character of the application. *)
Theorem settings_only_backup_removes_characters (st : State) (text : string)
  (now : Z) (data : json) :
  text <> "" ->
  JSON_parse text = Some data ->
  object_like data ->
  truthy (prop data "settings") = true ->
  ~ is_array (prop data "characters") ->
  let st' := confirmImport (handleImportFileSelect st (Loaded text) now) in
  app_characters st' = []
  /\ prop data "settings" = Val (app_settings st')
  /\ importMsg st' = msg_imported.
Proof.
  intros Hne Hparse Hobj Hs Hcs st'. subst st'.
  apply truthy_string_spec in Hne.
  unfold SettingsApp.handleImportFileSelect, parse_backup. rewrite Hne, Hparse.
  assert (match prop data "characters" with Val (JArr cs) => cs | _ => [] end = [])
    as Hnone.
  { destruct (prop data "characters") as [|[]]; try done.
    exfalso. apply Hcs. by eexists. }
  destruct data as [| | | |xs|m]; try done.
  rewrite Hs, Hnone. cbn [negb andb].
  unfold SettingsApp.confirmImport.
  cbn [pendingImport settings characters mapM app_settings localSettings].
  rewrite (or_else_truthy _ _ Hs), Hs. cbn. by rewrite or_else_truthy.
Qed.


(** X15: confirming twice is confirming once, whether the first attempt
    succeeded, failed or found nothing staged; and after a cancellation
    confirming does nothing. *)
Theorem confirm_idempotent (st : State) :
  confirmImport (confirmImport st) = confirmImport st
  /\ confirmImport (cancelImport st) = cancelImport st.
Proof.
  split; [|done].
  destruct (pendingImport st) as [pending|] eqn:Hp.
  - destruct (mapM sanitize (characters pending)) as [cs|] eqn:Hm.
    + assert (pendingImport (confirmImport st) = None) as Hnone.
      { unfold SettingsApp.confirmImport. by rewrite Hp, Hm. }
      unfold SettingsApp.confirmImport at 1. by rewrite Hnone.
    + assert (confirmImport st =
                {| app_settings := if truthy (Val (settings pending))
                                   then settings pending else app_settings st;
                   app_characters := app_characters st;
                   localSettings := if truthy (Val (settings pending))
                                    then settings pending else localSettings st;
                   importMsg := msg_apply_failed;
                   pendingImport := Some pending |}) as Hfail.
      { unfold SettingsApp.confirmImport. by rewrite Hp, Hm. }
      rewrite Hfail. unfold SettingsApp.confirmImport at 1.
      cbn [pendingImport app_settings app_characters localSettings].
      rewrite Hm. by destruct (truthy (Val (settings pending))).
  - assert (confirmImport st = st) as Hid.
    { unfold SettingsApp.confirmImport. by rewrite Hp. }
    by rewrite !Hid.
Qed.

End MoreImporting.

(** * Properties of the settings form *)

Lemma edits_keep_awaited (f : SettingsForm.Form) (evs : list SettingsForm.Event) :
  Forall SettingsForm.is_edit evs ->
  SettingsForm.awaited (foldl SettingsForm.step f evs) = SettingsForm.awaited f
  /\ SettingsForm.loadingModels (foldl SettingsForm.step f evs)
     = SettingsForm.loadingModels f.
Proof.
  intros Hevs. revert f. induction Hevs as [|ev evs Hev Hevs IH]; intros f; [done|].
  simpl. destruct (IH (SettingsForm.step f ev)) as [-> ->].
  by destruct ev.
Qed.

(** X16: the handler that fetches the model list writes back the
    [localSettings] of the render it was started in: when the list arrives,
    [localSettings] is that earlier value with [availableModels] replaced,
    so every edit made in the form while the request was in flight is
    lost. *)
Theorem fetched_models_overwrite_edits (f : SettingsForm.Form)
  (edits : list SettingsForm.Event) (models : json) :
  SettingsForm.loadingModels f = false ->
  truthy (prop (SettingsForm.localSettings f) "apiKey") = true ->
  Forall SettingsForm.is_edit edits ->
  let f' := SettingsForm.step
              (foldl SettingsForm.step (SettingsForm.step f SettingsForm.FetchModels) edits)
              (SettingsForm.Settled (length (SettingsForm.awaited f)) (Some models)) in
  SettingsForm.localSettings f' =
    SettingsForm.with_field "availableModels" models (SettingsForm.localSettings f)
  /\ SettingsForm.loadingModels f' = false
  /\ SettingsForm.awaited f' = SettingsForm.awaited f.
Proof.
  intros Hload Hkey Hedits f'. subst f'.
  destruct (edits_keep_awaited (SettingsForm.step f SettingsForm.FetchModels) edits Hedits)
    as [Haw Hl].
  assert (SettingsForm.awaited (SettingsForm.step f SettingsForm.FetchModels) =
            SettingsForm.awaited f
              ++ [SettingsForm.models_for (SettingsForm.localSettings f)]) as Hfetch.
  { simpl. by rewrite Hload, Hkey. }
  rewrite Hfetch in Haw.
  set (f2 := foldl SettingsForm.step _ edits) in *.
  simpl. rewrite Haw, list_lookup_middle by done. simpl.
  split; [done|]. split; [done|]. by rewrite delete_middle, app_nil_r.
Qed.


Lemma stuck_step (f : SettingsForm.Form) (ev : SettingsForm.Event) :
  SettingsForm.loadingModels f = true ->
  Forall (fun a => match a with SettingsForm.models_for _ => False | _ => True end)
    (SettingsForm.awaited f) ->
  SettingsForm.loadingModels (SettingsForm.step f ev) = true
  /\ Forall (fun a => match a with SettingsForm.models_for _ => False | _ => True end)
       (SettingsForm.awaited (SettingsForm.step f ev)).
Proof.
  intros Hload Haw. destruct ev as [s|i| |i result| | | |]; simpl; try done.
  - by rewrite Hload.
  - destruct (SettingsForm.awaited f !! i) as [a|] eqn:Hi; [|done].
    assert (Forall (fun a => match a with
                             | SettingsForm.models_for _ => False
                             | _ => True
                             end) (delete i (SettingsForm.awaited f))) as Hdel.
    { by apply Forall_delete. }
    assert (match a with SettingsForm.models_for _ => False | _ => True end) as Ha.
    { eapply Forall_forall in Haw; [done|]. by eapply list_elem_of_lookup_2. }
    destruct a as [c|c|c]; [done|..]; destruct result as [r|]; simpl; try done.
    by repeat case_match.
  - split; [done|]. apply Forall_app. by split; [|repeat constructor].
  - split; [done|]. apply Forall_app. by split; [|repeat constructor].
Qed.

(** X18: a request for the model list that is rejected leaves
    [loadingModels] set for good: no later event of the form clears it, so
    no further request for the list is ever issued. *)
Theorem rejected_fetch_blocks_form (f : SettingsForm.Form)
  (evs : list SettingsForm.Event) :
  SettingsForm.loadingModels f = false ->
  truthy (prop (SettingsForm.localSettings f) "apiKey") = true ->
  Forall (fun a => match a with SettingsForm.models_for _ => False | _ => True end)
    (SettingsForm.awaited f) ->
  let rejected := SettingsForm.step (SettingsForm.step f SettingsForm.FetchModels)
                    (SettingsForm.Settled (length (SettingsForm.awaited f)) None) in
  SettingsForm.loadingModels (foldl SettingsForm.step rejected evs) = true
  /\ SettingsForm.awaited (SettingsForm.step (foldl SettingsForm.step rejected evs)
                             SettingsForm.FetchModels)
     = SettingsForm.awaited (foldl SettingsForm.step rejected evs).
Proof.
  intros Hload Hkey Haw rejected.
  assert (SettingsForm.loadingModels rejected = true
          /\ Forall (fun a => match a with
                              | SettingsForm.models_for _ => False
                              | _ => True
                              end) (SettingsForm.awaited rejected)) as Hinv.
  { subst rejected. unfold SettingsForm.step. rewrite Hload, Hkey.
    cbn [SettingsForm.awaited SettingsForm.set_awaited SettingsForm.set_loading].
    rewrite list_lookup_middle by done. simpl.
    by rewrite delete_middle, app_nil_r. }
  clearbody rejected. clear Hload Hkey Haw.
  assert (SettingsForm.loadingModels (foldl SettingsForm.step rejected evs) = true)
    as Hstuck.
  { revert rejected Hinv. induction evs as [|ev evs IH]; intros g [Hl Ha]; [done|].
    simpl. apply IH. by apply stuck_step. }
  split; [done|]. simpl. by rewrite Hstuck.
Qed.

(** * Properties of the settings component as a whole *)

Section Component.

Variable DEFAULT_OFFLINE_PROMPT : string.
Variable JSON_parse : string -> option json.

Local Abbreviation step := (SettingsComponent.step DEFAULT_OFFLINE_PROMPT JSON_parse).





End Component.

(** * Concrete instances *)

Lemma failed_turn_keeps_user_message_witness :
  let w := Sample.world MoreSample.chat_character "hi" in
  accepted (props_in w MoreSample.chat_character)
  /\ Character.messages <$>
       w_characters
         (step Sample.interpolate (step Sample.interpolate w (Send 0 5 6))
            (Settle 0 Rejected 7 8))
     = [ [Sample.message "1" user "a";
          userMsg (props_in w MoreSample.chat_character) 5 6] ].
Proof.
  intros w.
  assert (accepted (props_in w MoreSample.chat_character)) as Hacc by (by split).
  split; [exact Hacc|].
  destruct (failed_turn_keeps_user_message Sample.interpolate w 0
              MoreSample.chat_character 5 6 7 8 eq_refl Hacc) as [Hchars _].
  change (length (w_requests w)) with 0%nat in Hchars.
  rewrite Hchars. reflexivity.
Defined.

Lemma send_ignored_iff_witness :
  Forall (fun a => (nat_of_ascii a < 128)%nat)
    (chars (inputText (Sample.props MoreSample.chat_character false "  ")))
  /\ handleSendMessage Sample.interpolate
       (Sample.props MoreSample.chat_character false "  ") 5 6 = ([], None).
Proof.
  assert (Forall (fun a => (nat_of_ascii a < 128)%nat)
            (chars (inputText (Sample.props MoreSample.chat_character false "  "))))
    as Hascii by (repeat constructor; simpl; lia).
  split; [exact Hascii|].
  apply (send_ignored_iff Sample.interpolate
           (Sample.props MoreSample.chat_character false "  ") 5 6 Hascii).
  left. repeat constructor; simpl; set_solver.
Defined.

Lemma payload_length_witness :
  1 <= Character.historyCount MoreSample.chat_character
  /\ Z.of_nat (length (messagesPayload Sample.interpolate MoreSample.chat_character
                         (Sample.message "2" user "hi"))) = 3.
Proof.
  assert (1 <= Character.historyCount MoreSample.chat_character) as Hn
    by (simpl; lia).
  split; [exact Hn|].
  destruct (payload_length Sample.interpolate MoreSample.chat_character
              (Sample.message "2" user "hi") Hn) as [Hlen _].
  rewrite Hlen. reflexivity.
Defined.

Lemma generating_iff_request_witness :
  let w := step Sample.interpolate
             (Sample.world MoreSample.chat_character "hi") (Send 0 5 6) in
  reachable Sample.interpolate w
  /\ (w_generating w = true <-> length (w_requests w) = 1%nat).
Proof.
  intros w.
  assert (reachable Sample.interpolate w) as Hw.
  { exists (Sample.world MoreSample.chat_character "hi"), [Send 0 5 6].
    by split. }
  split; [exact Hw|].
  exact (generating_iff_request Sample.interpolate w Hw).
Defined.

Lemma reply_id_differs_witness :
  5 <= 5
  /\ Message.id (aiMsg (userMsg (Sample.props MoreSample.chat_character false "hi") 5 6)
                   "hello" 5 6)
     <> Message.id (userMsg (Sample.props MoreSample.chat_character false "hi") 5 6).
Proof.
  assert (5 <= 5) as Hclock by lia.
  split; [exact Hclock|].
  exact (reply_id_differs (Sample.props MoreSample.chat_character false "hi")
           5 6 "hello" 5 6 Hclock).
Defined.

Lemma panel_saves_only_its_fields_witness :
  let p := ChatSettings.run (ChatSettings.mount MoreSample.chat_character)
             MoreSample.panel_events in
  exists t,
    ChatSettings.onUpdateCharacter t ∈ snd (ChatSettings.step p ChatSettings.SaveSettings)
    /\ Character.remark t = "Kitty"
    /\ OfflineConfig.wordCount (Character.offlineConfig t) = 200
    /\ Character.messages t = Character.messages MoreSample.chat_character.
Proof.
  intros p.
  exists (ChatSettings.edited "Kitty" "novel" 200 (Some "bg.png")
            MoreSample.chat_character).
  assert (ChatSettings.onUpdateCharacter
            (ChatSettings.edited "Kitty" "novel" 200 (Some "bg.png")
               MoreSample.chat_character)
          ∈ snd (ChatSettings.step p ChatSettings.SaveSettings)) as Hin.
  { apply list_elem_of_singleton. reflexivity. }
  split; [exact Hin|]. split; [reflexivity|]. split; [reflexivity|].
  destruct (panel_saves_only_its_fields MoreSample.chat_character
              MoreSample.panel_events _ Hin) as (_ & _ & Hm & _).
  exact Hm.
Defined.

Lemma sanitize_idempotent_witness :
  is_Some (sanitize Sample.offline_prompt Sample.stored_character)
  /\ forall c', sanitize Sample.offline_prompt Sample.stored_character = Some c' ->
                sanitize Sample.offline_prompt c' = Some c'.
Proof.
  split; [by eexists|]. intros c' Hc'.
  exact (sanitize_idempotent Sample.offline_prompt Sample.stored_character c' Hc').
Defined.

Lemma sample_characters_typed :
  Forall character_typed [Sample.stored_character; Sample.chatty_character].
Proof.
  apply Forall_cons. split; [|apply Forall_cons; split; [|apply Forall_nil_2]].
  - split; [by eexists|]. right. eexists. split; [reflexivity|].
    apply Forall_cons. split; [|apply Forall_nil_2].
    split; [by eexists | by left].
  - split; [by eexists | by left].
Defined.

Lemma export_at_most_50_witness :
  Forall character_typed [Sample.stored_character; Sample.chatty_character]
  /\ is_Some (handleExportBackup Sample.app_settings
                [Sample.stored_character; Sample.chatty_character] 7)
  /\ forall b,
       handleExportBackup Sample.app_settings
         [Sample.stored_character; Sample.chatty_character] 7 = Some b ->
       Forall (fun c' =>
                 (exists ms, prop c' "messages" = Val (JArr ms)
                             /\ (length ms <= 50)%nat)
                 /\ forall ss', prop c' "scenarios" = Val (JArr ss') ->
                      Forall (fun s' => exists ms, prop s' "messages" = Val (JArr ms)
                                                   /\ (length ms <= 50)%nat) ss')
         (characters b).
Proof.
  split; [exact sample_characters_typed|]. split; [by eexists|].
  intros b Hb.
  exact (export_at_most_50 Sample.app_settings
           [Sample.stored_character; Sample.chatty_character] 7 b
           sample_characters_typed Hb).
Defined.

Lemma export_character_idempotent_witness :
  character_typed Sample.chatty_character
  /\ is_Some (export_character Sample.chatty_character)
  /\ forall c', export_character Sample.chatty_character = Some c' ->
                export_character c' = Some c'.
Proof.
  assert (character_typed Sample.chatty_character) as Hty
    by (split; [by eexists | by left]).
  split; [exact Hty|]. split; [by eexists|]. intros c' Hc'.
  exact (export_character_idempotent Sample.chatty_character c' Hty Hc').
Defined.

Lemma confirm_fails_after_settings_witness :
  pendingImport (MoreSample.staged MoreSample.broken_backup)
    = Some MoreSample.broken_backup
  /\ truthy (Val (settings MoreSample.broken_backup)) = true
  /\ JNull ∈ characters MoreSample.broken_backup
  /\ app_settings (confirmImport Sample.offline_prompt
                     (MoreSample.staged MoreSample.broken_backup))
     = settings MoreSample.broken_backup
  /\ app_characters (confirmImport Sample.offline_prompt
                       (MoreSample.staged MoreSample.broken_backup))
     = [Sample.chatty_character].
Proof.
  assert (JNull ∈ characters MoreSample.broken_backup) as Hnull.
  { apply elem_of_cons. right. apply elem_of_cons. by left. }
  split; [reflexivity|]. split; [reflexivity|]. split; [exact Hnull|].
  destruct (confirm_fails_after_settings Sample.offline_prompt
              (MoreSample.staged MoreSample.broken_backup)
              MoreSample.broken_backup eq_refl eq_refl Hnull)
    as (Hs & _ & Hc & _).
  split; [exact Hs | exact Hc].
Defined.

Lemma settings_only_backup_removes_characters_witness :
  let st := Sample.state [Sample.stored_character; Sample.chatty_character] in
  let st' := confirmImport Sample.offline_prompt
               (handleImportFileSelect (Sample.reads MoreSample.settings_only)
                  st (Loaded "backup") 9) in
  object_like MoreSample.settings_only
  /\ truthy (prop MoreSample.settings_only "settings") = true
  /\ ~ is_array (prop MoreSample.settings_only "characters")
  /\ app_characters st' = []
  /\ importMsg st' = msg_imported.
Proof.
  intros st st'.
  assert (~ is_array (prop MoreSample.settings_only "characters")) as Hcs
    by (by intros [xs ?]).
  split; [exact I|]. split; [reflexivity|]. split; [exact Hcs|].
  destruct (settings_only_backup_removes_characters Sample.offline_prompt
              (Sample.reads MoreSample.settings_only) st "backup" 9
              MoreSample.settings_only) as (Hc & _ & Hm);
    [done | reflexivity | exact I | reflexivity | exact Hcs |].
  split; [exact Hc | exact Hm].
Defined.


Lemma fetched_models_overwrite_edits_witness :
  let edits := [ SettingsForm.EditField (SettingsForm.apiUrl "https://other.example") ] in
  let f' := SettingsForm.step
              (foldl SettingsForm.step
                 (SettingsForm.step MoreSample.form SettingsForm.FetchModels) edits)
              (SettingsForm.Settled 0 (Some MoreSample.models)) in
  Forall SettingsForm.is_edit edits
  /\ prop (SettingsForm.localSettings f') "apiUrl" = Val (JStr "https://api.example/v1")
  /\ prop (SettingsForm.localSettings f') "availableModels" = Val MoreSample.models.
Proof.
  intros edits f'.
  assert (Forall SettingsForm.is_edit edits) as Hedits by (by repeat constructor).
  split; [exact Hedits|].
  destruct (fetched_models_overwrite_edits MoreSample.form edits MoreSample.models
              eq_refl eq_refl Hedits) as (Hl & _ & _).
  change (length (SettingsForm.awaited MoreSample.form)) with 0%nat in Hl.
  fold f' in Hl. rewrite Hl. split; reflexivity.
Defined.


Lemma rejected_fetch_blocks_form_witness :
  let evs := [ SettingsForm.EditField (SettingsForm.apiKey "other");
               SettingsForm.SavedTimeout; SettingsForm.FetchModels ] in
  let rejected := SettingsForm.step
                    (SettingsForm.step MoreSample.form SettingsForm.FetchModels)
                    (SettingsForm.Settled 0 None) in
  SettingsForm.loadingModels MoreSample.form = false
  /\ truthy (prop (SettingsForm.localSettings MoreSample.form) "apiKey") = true
  /\ SettingsForm.loadingModels (foldl SettingsForm.step rejected evs) = true.
Proof.
  intros evs rejected.
  split; [reflexivity|]. split; [reflexivity|].
  destruct (rejected_fetch_blocks_form MoreSample.form evs eq_refl eq_refl)
    as [Hstuck _]; [constructor|].
  exact Hstuck.
Defined.
